(** * Template file generator: a shallow embedding of [template_generator.py]

    The script reads a template and a CSV table and writes one output file per
    data row, replacing the placeholders [${NAME}] and [{{NAME}}] of the
    template by the row's values.

    Conventions of the embedding.
    - Python [str] is modelled by [string]; a character is an [ascii], so the
      model covers the code points below 256.
    - A Python [dict] is an association list kept in insertion order with one
      entry per key ([dict_set]); [None] is the constructor [PNone].
    - The standard library calls the script makes are modelled by what they
      compute: [re.sub] on an escaped literal pattern ([re_sub]),
      [str.strip] ([strip]), [str.endswith] ([endswith]), [str.join]
      ([join]), [csv.DictReader] on the lines the csv reader yields
      ([DictReader_row], [read_csv]).
    - The file system is a [world]: what reading the two input files gives and
      whether a write succeeds.  Console output and file writes are recorded as
      a list of [event]s; the way the process ends is an [outcome]. *)

From Stdlib Require Import String Ascii List Bool Arith Lia.
From Stdlib Require Import Numbers.DecimalString.
Import ListNotations.
Open Scope list_scope.
Open Scope string_scope.

(* ================================================================= *)
(** ** Strings *)

Module Str.

(** one line feed character *)
Definition nl : string := String (ascii_of_nat 10) "".

(** [s.endswith(suffix)] *)
Definition endswith (s suffix : string) : bool :=
  (String.length suffix <=? String.length s)%nat
  && (substring (String.length s - String.length suffix)
                (String.length suffix) s =? suffix)%string.

(** [s[n:]] *)
Fixpoint drop (n : nat) (s : string) : string :=
  match n, s with
  | O, _ => s
  | S _, "" => ""
  | S k, String _ s' => drop k s'
  end.

(** the string read backwards *)
Fixpoint rev (s : string) : string :=
  match s with
  | "" => ""
  | String c s' => rev s' ++ String c ""
  end.

(** [c.isspace()] on the code points below 256: tab, line feed, vertical
    tab, form feed, carriage return, the four separators 0x1c-0x1f, space,
    next-line 0x85 and no-break space 0xa0 *)
Definition isspace (c : ascii) : bool :=
  let n := nat_of_ascii c in
  (((9 <=? n) && (n <=? 13)) || ((28 <=? n) && (n <=? 32))
   || (n =? 133) || (n =? 160))%nat.

(** [s.lstrip()] *)
Fixpoint lstrip (s : string) : string :=
  match s with
  | "" => ""
  | String c s' => if isspace c then lstrip s' else s
  end.

(** [s.rstrip()] *)
Definition rstrip (s : string) : string := rev (lstrip (rev s)).

(** [s.strip()] *)
Definition strip (s : string) : string := rstrip (lstrip s).

(** [sep.join(l)] *)
Fixpoint join (sep : string) (l : list string) : string :=
  match l with
  | [] => ""
  | [x] => x
  | x :: rest => x ++ sep ++ join sep rest
  end.

(** [str(n)] for a non-negative integer *)
Definition of_nat (n : nat) : string := NilZero.string_of_uint (Nat.to_uint n).

(** does the character [c] occur in [s] *)
Fixpoint mem (c : ascii) (s : string) : bool :=
  match s with
  | "" => false
  | String d s' => Ascii.eqb c d || mem c s'
  end.

End Str.

(* ================================================================= *)
(** ** Python values and dictionaries *)

(** The values a row of [csv.DictReader] binds a column name to: a field of
    the line, or [None] ([restval]) for a column the line is too short for. *)
Inductive pyval : Type :=
| PStr (s : string)
| PNone.

(** [str(v)] *)
Definition py_str (v : pyval) : string :=
  match v with
  | PStr s => s
  | PNone => "None"
  end.

(** A [dict] with string keys: insertion order, one entry per key. *)
Definition dict (V : Type) : Type := list (string * V).

(** [d[k]], [None] standing for [KeyError] *)
Fixpoint dict_get {V} (k : string) (d : dict V) : option V :=
  match d with
  | [] => None
  | (k', v) :: d' => if (k =? k')%string then Some v else dict_get k d'
  end.

(** [d[k] = v]: an existing key keeps its place and takes the new value, a
    new key goes to the end *)
Fixpoint dict_set {V} (k : string) (v : V) (d : dict V) : dict V :=
  match d with
  | [] => [(k, v)]
  | (k', v') :: d' =>
      if (k =? k')%string then (k', v) :: d' else (k', v') :: dict_set k v d'
  end.

(** [list(d.keys())] *)
Definition dict_keys {V} (d : dict V) : list string := map fst d.

(** [dict(pairs)] *)
Definition dict_of_pairs {V} (l : list (string * V)) : dict V :=
  fold_left (fun d kv => dict_set (fst kv) (snd kv) d) l [].

(** [zip(a, b)] is [List.combine a b]. *)

(* ================================================================= *)
(** ** Exceptions and results *)

(** The exceptions that can escape the script's functions. *)
Inductive exn : Type :=
| ReError (msg : string)      (* re.error raised for a bad replacement *)
| IndexError (msg : string)   (* unknown group name in a replacement *)
| AttributeError (msg : string)
| KeyError (key : string).

Inductive res (A : Type) : Type :=
| Ok (a : A)
| Raise (e : exn).
Arguments Ok {A} a.
Arguments Raise {A} e.

Definition bind {A B} (r : res A) (f : A -> res B) : res B :=
  match r with
  | Ok a => f a
  | Raise e => Raise e
  end.

Notation "x <- r ;; k" := (bind r (fun x => k))
  (at level 61, r at next level, right associativity).

(* ================================================================= *)
(** ** [re.sub] with an escaped literal pattern *)

(** [replace_variables] calls [re.sub(pattern, repl, string)] with a pattern
    built from fixed text and [re.escape(var_name)]: such a pattern matches
    one string only, the literal it spells.  The model takes that literal in
    place of the pattern.  The replacement is a template: [re] expands its
    backslash escapes before any search is made (CPython 3.7 and later;
    group names as CPython 3.12 reads them).  The pattern has no capture
    group, so the only group a template can name is group 0, the match. *)
Module Re.

Definition backslash : ascii := "\"%char.

Definition between (lo hi : nat) (c : ascii) : bool :=
  ((lo <=? nat_of_ascii c) && (nat_of_ascii c <=? hi))%nat.

Definition is_digit : ascii -> bool := between 48 57.
Definition is_octdigit : ascii -> bool := between 48 55.
Definition is_ascii_letter (c : ascii) : bool :=
  between 65 90 c || between 97 122 c.

Definition digit_value (c : ascii) : nat := nat_of_ascii c - 48.

(** [str.isidentifier] on the code points below 256 *)
Definition is_id_start (c : ascii) : bool :=
  is_ascii_letter c || Ascii.eqb c "_"
  || between 170 170 c || between 181 181 c || between 186 186 c
  || between 192 214 c || between 216 246 c || between 248 255 c.
Definition is_id_continue (c : ascii) : bool :=
  is_id_start c || is_digit c || between 183 183 c.

Fixpoint all_chars (f : ascii -> bool) (s : string) : bool :=
  match s with
  | "" => true
  | String c s' => f c && all_chars f s'
  end.

Definition isidentifier (s : string) : bool :=
  match s with
  | "" => false
  | String c s' => is_id_start c && all_chars is_id_continue s'
  end.

(** a piece of a parsed replacement template *)
Inductive part : Type :=
| Lit (s : string)   (* text copied as it is *)
| Group0.            (* the text of the match *)

(** the table [ESCAPES] of the template parser *)
Definition escape_char (c : ascii) : option ascii :=
  if Ascii.eqb c "a" then Some (ascii_of_nat 7)
  else if Ascii.eqb c "b" then Some (ascii_of_nat 8)
  else if Ascii.eqb c "f" then Some (ascii_of_nat 12)
  else if Ascii.eqb c "n" then Some (ascii_of_nat 10)
  else if Ascii.eqb c "r" then Some (ascii_of_nat 13)
  else if Ascii.eqb c "t" then Some (ascii_of_nat 9)
  else if Ascii.eqb c "v" then Some (ascii_of_nat 11)
  else if Ascii.eqb c backslash then Some backslash
  else None.

(** what [\g<name>] stands for in a pattern without groups *)
Definition group_of_name (name : string) : res part :=
  match name with
  | "" => Raise (ReError "missing group name")
  | _ =>
      if all_chars is_digit name then
        if all_chars (Ascii.eqb "0") name then Ok Group0
        else Raise (ReError "invalid group reference")
      else if isidentifier name then Raise (IndexError "unknown group name")
      else Raise (ReError "bad character in group name")
  end.

Definition chr (n : nat) : string := String (ascii_of_nat n) "".

Inductive pstate : Type :=
| Text                          (* between escapes *)
| GroupName (acc : string).     (* after [\g<], reading up to [>] *)

Definition cons_part (p : part) (r : res (list part)) : res (list part) :=
  ps <- r ;; Ok (p :: ps).

(** [parse_template], one character at a time *)
Fixpoint parse_from (st : pstate) (s : string) {struct s} : res (list part) :=
  match s with
  | "" =>
      match st with
      | Text => Ok []
      | GroupName _ => Raise (ReError "missing >, unterminated name")
      end
  | String c rest =>
      match st with
      | GroupName acc =>
          if Ascii.eqb c ">" then
            match group_of_name acc with
            | Ok p => cons_part p (parse_from Text rest)
            | Raise e => Raise e
            end
          else parse_from (GroupName (acc ++ String c "")) rest
      | Text =>
          if negb (Ascii.eqb c backslash) then
            cons_part (Lit (String c "")) (parse_from Text rest)
          else
            match rest with
            | "" => Raise (ReError "bad escape (end of pattern)")
            | String e rest1 =>
                if Ascii.eqb e "g" then
                  match rest1 with
                  | String lt rest2 =>
                      if Ascii.eqb lt "<" then parse_from (GroupName "") rest2
                      else Raise (ReError "missing <")
                  | "" => Raise (ReError "missing <")
                  end
                else if Ascii.eqb e "0" then
                  (* an octal escape of up to three digits *)
                  match rest1 with
                  | String d1 rest2 =>
                      if is_octdigit d1 then
                        match rest2 with
                        | String d2 rest3 =>
                            if is_octdigit d2 then
                              cons_part
                                (Lit (chr ((8 * digit_value d1 + digit_value d2) mod 256)))
                                (parse_from Text rest3)
                            else
                              cons_part (Lit (chr (digit_value d1)))
                                        (parse_from Text rest2)
                        | "" => Ok [Lit (chr (digit_value d1))]
                        end
                      else cons_part (Lit (chr 0)) (parse_from Text rest1)
                  | "" => Ok [Lit (chr 0)]
                  end
                else if is_digit e then
                  (* three octal digits are a character, anything else is
                     a reference to a group the pattern does not have *)
                  match rest1 with
                  | String d1 rest2 =>
                      if is_digit d1 then
                        match rest2 with
                        | String d2 rest3 =>
                            if is_octdigit e && is_octdigit d1 && is_octdigit d2 then
                              let v := 64 * digit_value e + 8 * digit_value d1
                                       + digit_value d2 in
                              if (255 <? v)%nat then
                                Raise (ReError "octal escape value outside of range 0-0o377")
                              else cons_part (Lit (chr v)) (parse_from Text rest3)
                            else Raise (ReError "invalid group reference")
                        | "" => Raise (ReError "invalid group reference")
                        end
                      else Raise (ReError "invalid group reference")
                  | "" => Raise (ReError "invalid group reference")
                  end
                else
                  match escape_char e with
                  | Some x => cons_part (Lit (String x "")) (parse_from Text rest1)
                  | None =>
                      if is_ascii_letter e then Raise (ReError "bad escape")
                      else cons_part (Lit (String c (String e "")))
                                     (parse_from Text rest1)
                  end
            end
      end
  end.

Definition parse_template (repl : string) : res (list part) :=
  parse_from Text repl.

(** the text a parsed template stands for when the match is [m] *)
Fixpoint expand (ps : list part) (m : string) : string :=
  match ps with
  | [] => ""
  | Lit s :: ps' => s ++ expand ps' m
  | Group0 :: ps' => m ++ expand ps' m
  end.

(** One scan from left to right over [s]: at a position where [lit]
    starts, the replacement [r] goes to the output and the scan resumes
    behind the match ([skip] counts the characters of the match still to
    pass over); elsewhere the character is copied.  [lit] is not
    empty. *)
Fixpoint scan (lit r : string) (skip : nat) (s : string) : string :=
  match s with
  | "" => ""
  | String c s' =>
      match skip with
      | S k => scan lit r k s'
      | O =>
          if prefix lit s then r ++ scan lit r (String.length lit - 1) s'
          else String c (scan lit r 0 s')
      end
  end.

(** every non-overlapping occurrence of [lit] in [s], leftmost first,
    replaced by [r] *)
Definition replace_all (lit r s : string) : string := scan lit r 0 s.

(** [re.sub(pattern, repl, s)] for a pattern that matches the literal
    [lit] only *)
Definition re_sub (lit repl s : string) : res string :=
  ps <- parse_template repl ;;
  Ok (replace_all lit (expand ps lit) s).

End Re.

(* ================================================================= *)
(** ** [replace_variables] *)

(** the text the pattern [r'\$\{' + re.escape(var_name) + r'\}'] matches *)
Definition dollar_placeholder (var_name : string) : string :=
  "${" ++ var_name ++ "}".

(** the text the pattern [r'\{\{' + re.escape(var_name) + r'\}\}'] matches *)
Definition brace_placeholder (var_name : string) : string :=
  "{{" ++ var_name ++ "}}".

(** one [for var_name, var_value in variables.items()] loop, for the
    placeholder syntax [ph] *)
Fixpoint replace_pass (ph : string -> string) (variables : dict pyval)
         (result : string) : res string :=
  match variables with
  | [] => Ok result
  | (var_name, var_value) :: rest =>
      result' <- Re.re_sub (ph var_name) (py_str var_value) result ;;
      replace_pass ph rest result'
  end.

Definition replace_variables (template : string) (variables : dict pyval)
  : res string :=
  let result := template in
  (* Replace ${VAR} format *)
  result <- replace_pass dollar_placeholder variables result ;;
  (* Replace {{VAR}} format *)
  result <- replace_pass brace_placeholder variables result ;;
  Ok result.

(* ================================================================= *)
(** ** The process: console, files, exit *)

(** What the run does that can be seen from outside, in order. *)
Inductive event : Type :=
| Print (text : string)             (* one call of [print] *)
| Write (path content : string).    (* a file opened and written *)

(** How the process ends. *)
Inductive outcome : Type :=
| Returned                 (* [main] returns *)
| SysExit (code : nat)     (* [sys.exit(code)] *)
| Uncaught (e : exn).      (* an exception no handler catches *)

Definition exit_status (o : outcome) : nat :=
  match o with
  | Returned => 0
  | SysExit code => code
  | Uncaught _ => 1
  end.

(** what opening and reading an input file gives *)
Inductive read_result (A : Type) : Type :=
| ReadOk (a : A)
| ReadNotFound                  (* [FileNotFoundError] *)
| ReadError (msg : string).     (* any other [Exception], with its text *)
Arguments ReadOk {A} a.
Arguments ReadNotFound {A}.
Arguments ReadError {A} msg.

(** The files the run meets.  [csv_file] gives the lines [csv.reader]
    yields, each a list of fields.  [write_file trace path content] tells
    whether creating the directories of [path] and writing the file succeeds
    after the events [trace]: [None] when it does, the text of the exception
    otherwise. *)
Record world : Type := {
  template_file : string -> read_result string;
  csv_file : string -> read_result (list (list string));
  write_file : list event -> string -> string -> option string
}.

(** the result of one statement: go on with a value, or the process ends *)
Inductive step (A : Type) : Type :=
| Next (a : A)
| Stop (o : outcome).
Arguments Next {A} a.
Arguments Stop {A} o.

(** A statement maps the events so far to the events after it and a step. *)
Definition M (A : Type) : Type := list event -> list event * step A.

Definition ret {A} (a : A) : M A := fun tr => (tr, Next a).

Definition mbind {A B} (m : M A) (f : A -> M B) : M B :=
  fun tr =>
    match m tr with
    | (tr', Next a) => f a tr'
    | (tr', Stop o) => (tr', Stop o)
    end.

Notation "x <~ m ;; k" := (mbind m (fun x => k))
  (at level 61, m at next level, right associativity).
Notation "m ;;; k" := (mbind m (fun _ => k))
  (at level 61, right associativity).

Definition print (text : string) : M unit :=
  fun tr => ((tr ++ [Print text])%list, Next tt).

Definition sys_exit {A} (code : nat) : M A :=
  fun tr => (tr, Stop (SysExit code)).

(** a call that may raise, outside any [try] *)
Definition lift {A} (r : res A) : M A :=
  fun tr =>
    match r with
    | Ok a => (tr, Next a)
    | Raise e => (tr, Stop (Uncaught e))
    end.

(** the events and the outcome of a whole program *)
Definition run (m : M unit) : list event * outcome :=
  match m [] with
  | (tr, Next _) => (tr, Returned)
  | (tr, Stop o) => (tr, o)
  end.

(** the files written, in order *)
Fixpoint files_written (tr : list event) : list (string * string) :=
  match tr with
  | [] => []
  | Write path content :: tr' => (path, content) :: files_written tr'
  | Print _ :: tr' => files_written tr'
  end.

(* ================================================================= *)
(** ** [read_template], [read_csv], [write_output] *)

Section Script.

Variable w : world.

Definition read_template (template_path : string) : M string :=
  match template_file w template_path with
  | ReadOk text => ret text
  | ReadNotFound =>
      print ("Error: Template file '" ++ template_path ++ "' not found.") ;;;
      sys_exit 1
  | ReadError e =>
      print ("Error reading template file: " ++ e) ;;;
      sys_exit 1
  end.

(** One row of [csv.DictReader]: [dict(zip(fieldnames, row))], then
    [restval], which is [None], for the field names a short line leaves
    out.  The entry a long line gets under the key [None] ([restkey]) is
    left out of the model: the script looks rows up by header strings
    only. *)
Definition DictReader_row (fieldnames row : list string) : dict pyval :=
  let d := dict_of_pairs (combine fieldnames (map PStr row)) in
  fold_left (fun d key => dict_set key PNone d)
            (skipn (List.length row) fieldnames) d.

Definition is_blank_line (row : list string) : bool :=
  match row with
  | [] => true
  | _ => false
  end.

(** [reader.fieldnames]: the first line, [None] when there is none *)
Definition DictReader_fieldnames (lines : list (list string))
  : option (list string) :=
  match lines with
  | [] => None
  | fieldnames :: _ => Some fieldnames
  end.

(** [list(reader)]: a row for every later line that is not blank *)
Definition DictReader_rows (lines : list (list string)) : list (dict pyval) :=
  match lines with
  | [] => []
  | fieldnames :: rest =>
      map (DictReader_row fieldnames)
          (filter (fun row => negb (is_blank_line row)) rest)
  end.

Definition read_csv (csv_path : string)
  : M (option (list string) * list (dict pyval)) :=
  match csv_file w csv_path with
  | ReadOk lines =>
      let headers := DictReader_fieldnames lines in
      let rows := DictReader_rows lines in
      ret (headers, rows)
  | ReadNotFound =>
      print ("Error: CSV file '" ++ csv_path ++ "' not found.") ;;;
      sys_exit 1
  | ReadError e =>
      print ("Error reading CSV file: " ++ e) ;;;
      sys_exit 1
  end.

Definition write_output (output_path content : string) : M unit :=
  fun tr =>
    match write_file w tr output_path content with
    | None =>
        ((tr ++ [Write output_path content;
                 Print ("Created: " ++ output_path)])%list, Next tt)
    | Some e =>
        ((tr ++ [Print ("Error writing to '" ++ output_path ++ "': " ++ e)])%list,
         Next tt)
    end.

(* =============================================================== *)
(** ** [main] *)

(** [if not output_filename.endswith('.txt'): output_filename += '.txt'] *)
Definition add_txt_extension (output_filename : string) : string :=
  if negb (Str.endswith output_filename ".txt")
  then output_filename ++ ".txt"
  else output_filename.

(** [{col: row[col] for col in variable_columns}] *)
Fixpoint build_variables (row : dict pyval) (variable_columns : list string)
         (acc : dict pyval) : res (dict pyval) :=
  match variable_columns with
  | [] => Ok acc
  | col :: cols =>
      match dict_get col row with
      | Some v => build_variables row cols (dict_set col v acc)
      | None => Raise (KeyError col)
      end
  end.

(** [row[filename_column].strip()] *)
Definition filename_of_row (row : dict pyval) (filename_column : string)
  : res string :=
  match dict_get filename_column row with
  | Some (PStr s) => Ok (Str.strip s)
  | Some PNone =>
      Raise (AttributeError "'NoneType' object has no attribute 'strip'")
  | None => Raise (KeyError filename_column)
  end.

(** the body of [for idx, row in enumerate(rows, 1)] *)
Definition process_row (template filename_column : string)
           (variable_columns : list string) (idx : nat) (row : dict pyval)
  : M unit :=
  (* Get output filename from first column *)
  output_filename <~ lift (filename_of_row row filename_column) ;;
  if (output_filename =? "")%string then
    print ("Warning: Row " ++ Str.of_nat idx ++ " has empty filename, skipping...")
  else
    (* Add .txt extension *)
    let output_filename := add_txt_extension output_filename in
    (* Build variables dictionary (excluding the filename column) *)
    variables <~ lift (build_variables row variable_columns []) ;;
    (* Replace variables in template *)
    output_content <~ lift (replace_variables template variables) ;;
    (* Write output file *)
    write_output output_filename output_content.

Fixpoint process_rows (template filename_column : string)
         (variable_columns : list string) (idx : nat)
         (rows : list (dict pyval)) : M unit :=
  match rows with
  | [] => ret tt
  | row :: rest =>
      process_row template filename_column variable_columns idx row ;;;
      process_rows template filename_column variable_columns (S idx) rest
  end.

Definition usage : M unit :=
  print "Usage: python script.py <template_file> <csv_file>" ;;;
  print (Str.nl ++ "Description:") ;;;
  print "  Generates multiple output files by replacing variables in a template" ;;;
  print "  file based on values from a CSV file." ;;;
  print (Str.nl ++ "Arguments:") ;;;
  print "  template_file  - Path to the template file containing variables" ;;;
  print "  csv_file       - Path to the CSV file with variable values" ;;;
  print (Str.nl ++ "Variable Format:") ;;;
  print "  Variables in template: ${VARIABLE_NAME} or {{VARIABLE_NAME}}" ;;;
  print "  CSV columns: First column = output filename (without extension)" ;;;
  print "               Other columns = variable names (case-sensitive)" ;;;
  print (Str.nl ++ "Example CSV:") ;;;
  print "  filename,SERVER_IP,PORT,USERNAME" ;;;
  print "  config1,192.168.1.10,8080,admin" ;;;
  print "  config2,192.168.1.20,8443,root" ;;;
  sys_exit 1.

(** [not rows] *)
Definition no_rows (rows : list (dict pyval)) : bool :=
  match rows with
  | [] => true
  | _ => false
  end.

(** [not headers]: [None] or an empty list *)
Definition no_headers (headers : option (list string)) : bool :=
  match headers with
  | None | Some [] => true
  | Some (_ :: _) => false
  end.

(** the text of the last [print] of [main] *)
Definition completed_message (rows : list (dict pyval)) : string :=
  Str.nl ++ "Completed! Generated " ++ Str.of_nat (List.length rows) ++ " file(s).".

Definition main (argv : list string) : M unit :=
  match argv with
  | [_; template_path; csv_path] =>
      (* Read template file *)
      print ("Reading template: " ++ template_path) ;;;
      template <~ read_template template_path ;;
      (* Read CSV file *)
      print ("Reading CSV: " ++ csv_path) ;;;
      hr <~ read_csv csv_path ;;
      let '(headers, rows) := hr in
      if no_headers headers || no_rows rows then
        print "Error: CSV file is empty or has no data rows." ;;;
        sys_exit 1
      else
        let headers := match headers with Some h => h | None => [] end in
        (* First column is the output filename *)
        let filename_column := hd "" headers in
        let variable_columns := tl headers in
        print (Str.nl ++ "Processing " ++ Str.of_nat (List.length rows) ++ " row(s)...") ;;;
        print ("Output filename column: '" ++ filename_column ++ "'") ;;;
        print ("Variable columns: " ++ Str.join ", " variable_columns) ;;;
        print "" ;;;
        (* Process each row *)
        process_rows template filename_column variable_columns 1 rows ;;;
        print (completed_message rows)
  | _ => usage
  end.

End Script.

(* ================================================================= *)
(** ** Example runs *)

(** a table whose only data row has an empty file name *)
Definition world_skipped_row : world := {|
  template_file := fun _ => ReadOk "v=${A}";
  csv_file := fun _ => ReadOk [["filename"; "A"]; [""; "x"]];
  write_file := fun _ _ _ => None
|}.

(** a table with two rows, on a file system that refuses the first write *)
Definition world_failed_write : world := {|
  template_file := fun _ => ReadOk "v=${A}";
  csv_file := fun _ => ReadOk [["filename"; "A"]; ["one"; "x"]; ["two.txt"; "y"]];
  write_file := fun _ path _ =>
                  if (path =? "one.txt")%string then Some "Permission denied"
                  else None
|}.

(** a table whose second row has blanks for a file name *)
Definition world_blank_name : world := {|
  template_file := fun _ => ReadOk "v=${A}";
  csv_file := fun _ => ReadOk [["filename"; "A"]; ["one"; "x"]; ["   "; "y"];
                               ["three"; "z"]];
  write_file := fun _ _ _ => None
|}.

(** a table with a header and no data row *)
Definition world_header_only : world := {|
  template_file := fun _ => ReadOk "v=${A}";
  csv_file := fun _ => ReadOk [["filename"; "A"]; []];
  write_file := fun _ _ _ => None
|}.

(* ================================================================= *)
(** ** Auxiliary notions for the proofs *)

(** the literal starts nowhere in the block [b] when [rest] follows *)
Fixpoint no_match_in (lit b rest : string) : Prop :=
  match b with
  | "" => True
  | String c b' =>
      String.prefix lit (String c (b' ++ rest)) = false /\ no_match_in lit b' rest
  end.

(** the shape the two placeholder syntaxes share: a first character [$] or
    [{], then [{], then a tail that is not empty and holds neither *)
Definition ph_shape (p : string) : Prop :=
  exists h t,
    p = String h (String "{" t)
    /\ (h = "$"%char \/ h = "{"%char)
    /\ Str.mem "$" t = false /\ Str.mem "{" t = false /\ t <> "".

(* ================================================================= *)
(** ** The vocabulary of the specification *)

(** A template cut into its pieces: text between placeholders, and the
    placeholders of the two syntaxes. *)
Inductive segment : Type :=
| Plain (text : string)
| Dollar (name : string)     (* [${name}] *)
| Brace (name : string).     (* [{{name}}] *)

Definition render_segment (seg : segment) : string :=
  match seg with
  | Plain text => text
  | Dollar name => dollar_placeholder name
  | Brace name => brace_placeholder name
  end.

(** the text of a template given by its pieces *)
Fixpoint render (segs : list segment) : string :=
  match segs with
  | [] => ""
  | seg :: segs' => render_segment seg ++ render segs'
  end.

(** a name with none of the characters the placeholder syntaxes are made of *)
Definition name_ok (name : string) : bool :=
  negb (Str.mem "$" name || Str.mem "{" name || Str.mem "}" name).

(** Text in which no placeholder can start, whatever comes behind it:
    every [$] and every [{] of the text has a next character in the text,
    and that character is not [{].  In other words the text holds neither
    [${] nor [{{] and does not end in [$] or [{]. *)
Fixpoint plain_ok (text : string) : bool :=
  match text with
  | "" => true
  | String c rest =>
      (if Ascii.eqb c "$" || Ascii.eqb c "{" then
         match rest with
         | String d _ => negb (Ascii.eqb d "{")
         | "" => false
         end
       else true)
      && plain_ok rest
  end.

(** a value whose text is plain and has no backslash *)
Definition value_ok (v : pyval) : bool :=
  plain_ok (py_str v) && negb (Str.mem Re.backslash (py_str v)).

Definition segment_ok (seg : segment) : bool :=
  match seg with
  | Plain text => plain_ok text
  | Dollar name | Brace name => name_ok name
  end.

(** a template whose every [$] and [{] belongs to a placeholder with a
    clean name *)
Definition template_ok (segs : list segment) : bool := forallb segment_ok segs.

Definition names_ok (variables : dict pyval) : bool :=
  forallb (fun kv => name_ok (fst kv)) variables.

Definition values_ok (variables : dict pyval) : bool :=
  forallb (fun kv => value_ok (snd kv)) variables.

(** The substitution as the specification words it, to compare
    [replace_variables] with: a placeholder naming a variable of the mapping
    stands for that variable's value as a string, any other piece stands
    for itself. *)
Definition spec_resolve (variables : dict pyval) (seg : segment) : segment :=
  match seg with
  | Plain _ => seg
  | Dollar name | Brace name =>
      match dict_get name variables with
      | Some v => Plain (py_str v)
      | None => seg
      end
  end.

(** the template with every placeholder of a known variable replaced by the
    variable's value, all at once *)
Definition spec_substitute (segs : list segment) (variables : dict pyval)
  : string :=
  render (map (spec_resolve variables) segs).

(** [replace_variables] with its two loops in the other order *)
Definition replace_variables_swapped (template : string)
           (variables : dict pyval) : res string :=
  let result := template in
  result <- replace_pass brace_placeholder variables result ;;
  result <- replace_pass dollar_placeholder variables result ;;
  Ok result.

(** what one scan does to a piece: the placeholder of [k] becomes the text
    [r] *)
Definition subst_dollar (k r : string) (seg : segment) : segment :=
  match seg with
  | Dollar n => if (n =? k)%string then Plain r else seg
  | _ => seg
  end.

Definition subst_brace (k r : string) (seg : segment) : segment :=
  match seg with
  | Brace n => if (n =? k)%string then Plain r else seg
  | _ => seg
  end.

(** what one loop does to a piece, in the words of the specification *)
Definition resolve_dollar (variables : dict pyval) (seg : segment) : segment :=
  match seg with
  | Dollar name =>
      match dict_get name variables with
      | Some v => Plain (py_str v)
      | None => seg
      end
  | _ => seg
  end.

Definition resolve_brace (variables : dict pyval) (seg : segment) : segment :=
  match seg with
  | Brace name =>
      match dict_get name variables with
      | Some v => Plain (py_str v)
      | None => seg
      end
  | _ => seg
  end.

(* ================================================================= *)
(** ** Substitution scan by scan, on the pieces of a template *)

(** A value that holds placeholders is given by its pieces as well.  One
    scan then puts the pieces of the value in the place of every piece that
    is the placeholder it looks for. *)
Definition splice_dollar (k : string) (value : list segment)
           (segs : list segment) : list segment :=
  flat_map (fun seg =>
              match seg with
              | Dollar n => if (n =? k)%string then value else [seg]
              | _ => [seg]
              end) segs.

Definition splice_brace (k : string) (value : list segment)
           (segs : list segment) : list segment :=
  flat_map (fun seg =>
              match seg with
              | Brace n => if (n =? k)%string then value else [seg]
              | _ => [seg]
              end) segs.

(** a mapping whose values are given by their pieces *)
Definition piece_dict : Type := list (string * list segment).

(** the scans of one loop, one after the other, in mapping order *)
Definition seq_pass
           (splice : string -> list segment -> list segment -> list segment)
           (m : piece_dict) (segs : list segment) : list segment :=
  fold_left (fun segs kv => splice (fst kv) (snd kv) segs) m segs.

(** the [${NAME}] scans in mapping order, then the [{{NAME}}] scans in
    mapping order, each on what the scans before it have left *)
Definition seq_substitute (m : piece_dict) (segs : list segment)
  : list segment :=
  seq_pass splice_brace m (seq_pass splice_dollar m segs).

(** [m] gives the values of [variables], name by name, by their pieces *)
Fixpoint pieces_of (variables : dict pyval) (m : piece_dict) : bool :=
  match variables, m with
  | [], [] => true
  | (k, v) :: variables', (k', value) :: m' =>
      (k =? k')%string && (py_str v =? render value)%string
      && pieces_of variables' m'
  | _, _ => false
  end.

(** clean names, and values made of plain text and clean placeholders,
    without backslash *)
Definition pieces_ok (m : piece_dict) : bool :=
  forallb (fun kv =>
             name_ok (fst kv) && template_ok (snd kv)
             && negb (Str.mem Re.backslash (render (snd kv)))) m.

(** the names of a mapping given by pieces *)
Definition piece_keys (m : piece_dict) : list string := map fst m.

Definition is_key (name : string) (keys : list string) : bool :=
  existsb (String.eqb name) keys.

(** no [${NAME}] piece of [segs] names one of [keys] *)
Definition no_dollar_of (keys : list string) (segs : list segment) : bool :=
  forallb (fun seg =>
             match seg with
             | Dollar n => negb (is_key n keys)
             | _ => true
             end) segs.

(** no [{{NAME}}] piece of [segs] names one of [keys] *)
Definition no_brace_of (keys : list string) (segs : list segment) : bool :=
  forallb (fun seg =>
             match seg with
             | Brace n => negb (is_key n keys)
             | _ => true
             end) segs.

(* ================================================================= *)
(** ** The loop body, taken apart *)

(** What the body of the loop of [main] computes for a row before it
    writes: nothing for a row whose file name is empty, else the path and
    the content of the file; the exception when one of the steps raises. *)
Definition row_output (template filename_column : string)
           (variable_columns : list string) (row : dict pyval)
  : res (option (string * string)) :=
  output_filename <- filename_of_row row filename_column ;;
  if (output_filename =? "")%string then Ok None
  else
    variables <- build_variables row variable_columns [] ;;
    output_content <- replace_variables template variables ;;
    Ok (Some (add_txt_extension output_filename, output_content)).

(** the files the rows ask for, in row order *)
Fixpoint planned_files (template filename_column : string)
         (variable_columns : list string) (rows : list (dict pyval))
  : list (string * string) :=
  match rows with
  | [] => []
  | row :: rest =>
      match row_output template filename_column variable_columns row with
      | Ok (Some file) =>
          file :: planned_files template filename_column variable_columns rest
      | _ => planned_files template filename_column variable_columns rest
      end
  end.

(** the rows the loop can work through without an exception *)
Definition rows_computable (template filename_column : string)
           (variable_columns : list string) (rows : list (dict pyval)) : bool :=
  forallb (fun row =>
             match row_output template filename_column variable_columns row with
             | Ok _ => true
             | Raise _ => false
             end) rows.

(** the exception [re.sub] raises for the first value of the mapping that is
    not a well-formed replacement, if there is one *)
Fixpoint first_error (variables : dict pyval) : option exn :=
  match variables with
  | [] => None
  | (_, var_value) :: rest =>
      match Re.parse_template (py_str var_value) with
      | Raise e => Some e
      | Ok _ => first_error rest
      end
  end.

(** a placeholder written in the other syntax *)
Definition flip_syntax (seg : segment) : segment :=
  match seg with
  | Plain text => Plain text
  | Dollar name => Brace name
  | Brace name => Dollar name
  end.

(** every placeholder of the template names a variable of the mapping *)
Definition all_known (variables : dict pyval) (segs : list segment) : bool :=
  forallb (fun seg =>
             match seg with
             | Plain _ => true
             | Dollar name | Brace name =>
                 match dict_get name variables with
                 | Some _ => true
                 | None => false
                 end
             end) segs.

(** no value of the mapping holds a backslash *)
Definition no_backslash (variables : dict pyval) : bool :=
  forallb (fun kv => negb (Str.mem Re.backslash (py_str (snd kv)))) variables.

(** a header that names its first column again behind the fields of a line *)
Definition world_repeated_name : world := {|
  template_file := fun _ => ReadOk "v=${a}";
  csv_file := fun _ => ReadOk [["a"; "a"]; ["x"]; ["y"; "z"]];
  write_file := fun _ _ _ => None
|}.

(** three rows, the second with a value that is no replacement template *)
Definition world_bad_escape : world := {|
  template_file := fun _ => ReadOk "dir=${D}";
  csv_file := fun _ => ReadOk [["filename"; "D"]; ["one"; "tmp"];
                               ["two"; "C:\dir"]; ["three"; "usr"]];
  write_file := fun _ _ _ => None
|}.

(* ================================================================= *)
(** ** Facts about strings *)

Import Str.

Lemma append_assoc (a b c : string) : (a ++ b) ++ c = a ++ b ++ c.
Proof. induction a as [|x a IH]; simpl; [reflexivity | now rewrite IH]. Qed.

Lemma length_append (a b : string) :
  String.length (a ++ b) = String.length a + String.length b.
Proof. induction a as [|x a IH]; simpl; [reflexivity | now rewrite IH]. Qed.

Lemma drop_append (a b : string) : drop (String.length a) (a ++ b) = b.
Proof. induction a as [|x a IH]; simpl; [now destruct b | exact IH]. Qed.

Lemma substring_all (s : string) : substring 0 (String.length s) s = s.
Proof. induction s as [|c s IH]; simpl; [reflexivity | now rewrite IH]. Qed.

Lemma substring_append (a b : string) :
  substring (String.length a) (String.length b) (a ++ b) = b.
Proof.
  induction a as [|x a IH]; simpl; [apply substring_all | exact IH].
Qed.

Lemma endswith_append (a b : string) : endswith (a ++ b) b = true.
Proof.
  unfold endswith. rewrite length_append.
  replace (String.length a + String.length b - String.length b)
    with (String.length a) by lia.
  rewrite substring_append, String.eqb_refl, andb_true_r.
  apply Nat.leb_le. lia.
Qed.

(** *** [prefix] *)

Lemma prefix_cons (a b : ascii) (s t : string) :
  prefix (String a s) (String b t) = Ascii.eqb a b && prefix s t.
Proof.
  simpl. destruct (ascii_dec a b) as [->|Hne].
  - now rewrite Ascii.eqb_refl.
  - apply Ascii.eqb_neq in Hne. now rewrite Hne.
Qed.

Lemma prefix_nil (s : string) : prefix "" s = true.
Proof. now destruct s. Qed.

Lemma prefix_append (p s : string) : prefix p (p ++ s) = true.
Proof.
  induction p as [|c p IH]; simpl; [apply prefix_nil|].
  destruct (ascii_dec c c); [exact IH | congruence].
Qed.

Lemma prefix_inv (p s : string) :
  prefix p s = true -> s = p ++ drop (String.length p) s.
Proof.
  revert s. induction p as [|c p IH]; intros s H; [reflexivity|].
  destruct s as [|d s]; [discriminate|].
  rewrite prefix_cons in H. apply andb_true_iff in H as [Hc Hp].
  apply Ascii.eqb_eq in Hc. subst d. simpl. f_equal. now apply IH.
Qed.

Lemma prefix_length (p s : string) :
  prefix p s = true -> String.length p <= String.length s.
Proof.
  intros H. rewrite (prefix_inv _ _ H), length_append. lia.
Qed.

(** a prefix of [x] is a prefix of [x ++ z] *)
Lemma prefix_weaken (p x z : string) :
  prefix p x = true -> prefix p (x ++ z) = true.
Proof.
  intros H. rewrite (prefix_inv _ _ H), append_assoc. apply prefix_append.
Qed.

(** a prefix of [x ++ z] lies within [x] or runs over its end into [z] *)
Lemma prefix_split (x p z : string) :
  prefix p (x ++ z) = true ->
  prefix p x = true
  \/ exists q, q <> "" /\ p = x ++ q /\ prefix q z = true.
Proof.
  revert p. induction x as [|c x IH]; intros p H.
  - destruct p as [|a p]; [now left|].
    right. exists (String a p). repeat split; [discriminate | exact H].
  - destruct p as [|a p]; [now left|].
    simpl in H. change (prefix (String a p) (String c (x ++ z)) = true) in H.
    rewrite prefix_cons in H. apply andb_true_iff in H as [Ha Hp].
    apply Ascii.eqb_eq in Ha. subst a.
    destruct (IH _ Hp) as [Hin | (q & Hq & -> & Hz)].
    + left. rewrite prefix_cons, Ascii.eqb_refl. exact Hin.
    + right. exists q. now repeat split.
Qed.

(** *** [mem] *)

Lemma mem_append (c : ascii) (a b : string) :
  mem c (a ++ b) = mem c a || mem c b.
Proof.
  induction a as [|x a IH]; simpl; [reflexivity|].
  now rewrite IH, orb_assoc.
Qed.

(** the first character of a suffix of [t] occurs in [t] *)
Lemma mem_suffix_head (x : string) (c : ascii) (q : string) :
  mem c (x ++ String c q) = true.
Proof.
  rewrite mem_append. simpl. rewrite Ascii.eqb_refl. apply orb_true_r.
Qed.


(* ================================================================= *)
(** ** Facts about one replacement scan *)

Import Re.

(** passing over [n] characters is dropping them *)
Lemma scan_skip (lit r : string) (n : nat) (s : string) :
  scan lit r n s = scan lit r 0 (drop n s).
Proof.
  revert n. induction s as [|c s IH]; intros [|n]; try reflexivity.
  simpl scan at 1. rewrite IH. reflexivity.
Qed.

(** where the literal starts, the replacement is put out and the scan
    goes on behind the literal: the replacement is not read again *)
Lemma replace_all_match (lit r rest : string) :
  lit <> "" ->
  replace_all lit r (lit ++ rest) = r ++ replace_all lit r rest.
Proof.
  intros Hne. unfold replace_all.
  destruct lit as [|c l]; [congruence|].
  change (String c l ++ rest) with (String c (l ++ rest)).
  set (p := String c l). cbn [scan].
  assert (Hp : prefix p (String c (l ++ rest)) = true)
    by apply (prefix_append p rest).
  rewrite Hp. subst p.
  replace (String.length (String c l) - 1) with (String.length l)
    by (cbn [String.length]; lia).
  rewrite scan_skip, drop_append. reflexivity.
Qed.

(** where the literal does not start, the character is copied *)
Lemma replace_all_copy (lit r : string) (c : ascii) (s : string) :
  prefix lit (String c s) = false ->
  replace_all lit r (String c s) = String c (replace_all lit r s).
Proof. intros H. unfold replace_all. cbn [scan]. now rewrite H. Qed.

Lemma replace_all_block (lit r b rest : string) :
  no_match_in lit b rest ->
  replace_all lit r (b ++ rest) = b ++ replace_all lit r rest.
Proof.
  induction b as [|c b IH]; intros H; [reflexivity|].
  destruct H as [H0 H]. cbn [append].
  rewrite replace_all_copy by exact H0. now rewrite IH.
Qed.

(** a block without the literal's first character holds no match *)
Lemma no_match_free (h : ascii) (l b rest : string) :
  mem h b = false -> no_match_in (String h l) b rest.
Proof.
  induction b as [|c b IH]; intros H; [exact I|].
  cbn [mem] in H. apply orb_false_iff in H as [Hc Hb].
  split; [|now apply IH].
  rewrite prefix_cons, Hc. reflexivity.
Qed.

(** a replacement without backslash stands for itself *)
Lemma parse_template_plain (s : string) :
  mem backslash s = false ->
  exists ps, parse_template s = Ok ps /\ forall m, expand ps m = s.
Proof.
  unfold parse_template. induction s as [|c s IH]; intros H.
  - exists []. now split.
  - cbn [mem] in H. apply orb_false_iff in H as [Hc Hs].
    destruct (IH Hs) as (ps & Hps & Hex).
    exists (Lit (String c "") :: ps). cbn [parse_from].
    rewrite Ascii.eqb_sym in Hc. rewrite Hc. cbn [negb].
    rewrite Hps. split; [reflexivity|].
    intros m. cbn [expand]. now rewrite Hex.
Qed.

Lemma re_sub_plain (lit repl s : string) :
  mem backslash repl = false ->
  re_sub lit repl s = Ok (replace_all lit repl s).
Proof.
  intros H. unfold re_sub.
  destruct (parse_template_plain repl H) as (ps & -> & Hex).
  cbn [bind]. now rewrite Hex.
Qed.

(** whether [re.sub] raises depends on the replacement only *)
Lemma re_sub_cases (lit repl : string) :
  (exists r, forall s, re_sub lit repl s = Ok (replace_all lit r s))
  \/ (exists e, forall s, re_sub lit repl s = Raise e).
Proof.
  unfold re_sub. destruct (parse_template repl) as [ps|e].
  - left. exists (expand ps lit). reflexivity.
  - right. exists e. reflexivity.
Qed.


(* ================================================================= *)
(** ** Facts about the placeholders *)

Lemma dollar_placeholder_eq (name : string) :
  dollar_placeholder name = String "$" (String "{" (name ++ "}")).
Proof. reflexivity. Qed.

Lemma brace_placeholder_eq (name : string) :
  brace_placeholder name = String "{" (String "{" (name ++ "}}")).
Proof. reflexivity. Qed.

Lemma name_ok_inv (name : string) :
  name_ok name = true ->
  mem "$" name = false /\ mem "{" name = false /\ mem "}" name = false.
Proof.
  unfold name_ok. intros H. apply negb_true_iff in H.
  apply orb_false_iff in H as [H H3]. apply orb_false_iff in H as [H1 H2].
  auto.
Qed.

Lemma append_not_nil (a : string) (c : ascii) (b : string) :
  a ++ String c b <> "".
Proof. destruct a; discriminate. Qed.

Lemma dollar_shape (name : string) :
  name_ok name = true -> ph_shape (dollar_placeholder name).
Proof.
  intros H. destruct (name_ok_inv _ H) as (H1 & H2 & _).
  exists "$"%char, (name ++ "}"). repeat split.
  - now left.
  - now rewrite mem_append, H1.
  - now rewrite mem_append, H2.
  - apply append_not_nil.
Qed.

Lemma brace_shape (name : string) :
  name_ok name = true -> ph_shape (brace_placeholder name).
Proof.
  intros H. destruct (name_ok_inv _ H) as (H1 & H2 & _).
  exists "{"%char, (name ++ "}}"). repeat split.
  - now right.
  - now rewrite mem_append, H1.
  - now rewrite mem_append, H2.
  - apply append_not_nil.
Qed.

(** two names closed by [}] at the same place are the same name *)
Lemma name_eq_of_prefix (k n x y : string) :
  mem "}" k = false -> mem "}" n = false ->
  prefix (k ++ String "}" x) (n ++ String "}" y) = true -> k = n.
Proof.
  revert n. induction k as [|a k IH]; intros [|c n] Hk Hn H.
  - reflexivity.
  - cbn [append] in H. rewrite prefix_cons in H.
    cbn [mem] in Hn. apply orb_false_iff in Hn as [Hc _].
    rewrite Hc in H. discriminate.
  - cbn [append] in H. rewrite prefix_cons in H.
    cbn [mem] in Hk. apply orb_false_iff in Hk as [Ha _].
    rewrite Ascii.eqb_sym, Ha in H. discriminate.
  - cbn [append] in H. rewrite prefix_cons in H.
    apply andb_true_iff in H as [Hac H]. apply Ascii.eqb_eq in Hac. subst c.
    cbn [mem] in Hk, Hn.
    apply orb_false_iff in Hk as [_ Hk]. apply orb_false_iff in Hn as [_ Hn].
    f_equal. now apply IH.
Qed.

(** a placeholder starts at the head of another one only if both are the
    same placeholder *)
Lemma dollar_prefix_dollar (k n rest : string) :
  name_ok k = true -> name_ok n = true -> k <> n ->
  prefix (dollar_placeholder k) (dollar_placeholder n ++ rest) = false.
Proof.
  intros Hk Hn Hne. apply not_true_is_false. intros H. apply Hne.
  destruct (name_ok_inv _ Hk) as (_ & _ & Hk3).
  destruct (name_ok_inv _ Hn) as (_ & _ & Hn3).
  rewrite !dollar_placeholder_eq in H. cbn [append] in H.
  rewrite !prefix_cons, !Ascii.eqb_refl in H. cbn [andb] in H.
  rewrite append_assoc in H. cbn [append] in H.
  exact (name_eq_of_prefix _ _ _ _ Hk3 Hn3 H).
Qed.

Lemma brace_prefix_brace (k n rest : string) :
  name_ok k = true -> name_ok n = true -> k <> n ->
  prefix (brace_placeholder k) (brace_placeholder n ++ rest) = false.
Proof.
  intros Hk Hn Hne. apply not_true_is_false. intros H. apply Hne.
  destruct (name_ok_inv _ Hk) as (_ & _ & Hk3).
  destruct (name_ok_inv _ Hn) as (_ & _ & Hn3).
  rewrite !brace_placeholder_eq in H. cbn [append] in H.
  rewrite !prefix_cons, !Ascii.eqb_refl in H. cbn [andb] in H.
  rewrite append_assoc in H. cbn [append] in H.
  exact (name_eq_of_prefix _ _ _ _ Hk3 Hn3 H).
Qed.

Lemma dollar_prefix_brace (k n rest : string) :
  prefix (dollar_placeholder k) (brace_placeholder n ++ rest) = false.
Proof. reflexivity. Qed.

Lemma brace_prefix_dollar (k n rest : string) :
  prefix (brace_placeholder k) (dollar_placeholder n ++ rest) = false.
Proof. reflexivity. Qed.

Create HintDb placeholders.
#[local] Hint Resolve dollar_shape brace_shape dollar_prefix_dollar
  brace_prefix_brace dollar_prefix_brace brace_prefix_dollar : placeholders.

(** a placeholder that does not start at the head of a block of placeholder
    shape starts nowhere in the block *)
Lemma no_match_shape (lit blk rest : string) :
  ph_shape lit -> ph_shape blk ->
  prefix lit (blk ++ rest) = false ->
  no_match_in lit blk rest.
Proof.
  intros (h & t & -> & Hh & Ht1 & Ht2 & Htn) (g & u & -> & Hg & Hu1 & Hu2 & Hun) H0.
  cbn [no_match_in]. split; [exact H0|]. split.
  - rewrite prefix_cons. destruct Hh as [->| ->]; [reflexivity|].
    rewrite Ascii.eqb_refl. cbn [andb].
    destruct u as [|c u]; [congruence|].
    cbn [mem] in Hu2. apply orb_false_iff in Hu2 as [Hc _].
    cbn [append]. rewrite prefix_cons, Hc. reflexivity.
  - apply no_match_free. now destruct Hh as [->| ->].
Qed.

(** a match cannot begin before a block of placeholder shape and end in it *)
Lemma no_straddle (lit blk x y : string) :
  ph_shape lit -> ph_shape blk -> x <> "" ->
  prefix lit (x ++ blk ++ y) = true -> prefix lit x = true.
Proof.
  intros (h & t & -> & Hh & Ht1 & Ht2 & Htn) (g & u & -> & Hg & Hu1 & Hu2 & Hun)
         Hx H.
  destruct (prefix_split _ _ _ H) as [Hin | (q & Hq & Heq & Hz)]; [exact Hin|].
  exfalso.
  destruct x as [|c x]; [congruence|].
  cbn [append] in Heq. injection Heq as _ Heq.
  destruct q as [|a q]; [congruence|].
  cbn [append] in Hz. rewrite prefix_cons in Hz.
  apply andb_true_iff in Hz as [Hag Hz]. apply Ascii.eqb_eq in Hag. subst a.
  destruct x as [|c' x].
  - cbn [append] in Heq. injection Heq as Hg' Heq. subst g q.
    destruct t as [|d t]; [congruence|].
    rewrite prefix_cons in Hz.
    cbn [mem] in Ht2. apply orb_false_iff in Ht2 as [Hd _].
    rewrite Ascii.eqb_sym, Hd in Hz. discriminate.
  - cbn [append] in Heq. injection Heq as _ Heq.
    assert (Hm : mem g t = true) by (rewrite Heq; apply mem_suffix_head).
    destruct Hg as [->| ->]; congruence.
Qed.

(** Around a block of placeholder shape a scan works on the text before
    it, on the block, and on the text behind it, each by itself. *)
Lemma scan_around (lit r blk out y : string) :
  ph_shape lit -> ph_shape blk ->
  replace_all lit r (blk ++ y) = out ++ replace_all lit r y ->
  forall x n, n <= String.length x ->
    scan lit r n (x ++ blk ++ y) = scan lit r n x ++ out ++ replace_all lit r y.
Proof.
  intros Hlit Hblk Hb. induction x as [|c x IH]; intros n Hn.
  - cbn [String.length] in Hn. assert (n = 0) by lia. subst n. exact Hb.
  - destruct n as [|n].
    + cbn [append scan].
      destruct (prefix lit (String c x)) eqn:Hp.
      * pose proof (prefix_weaken _ _ (blk ++ y) Hp) as Hp'.
        cbn [append] in Hp'. rewrite Hp'.
        rewrite IH, append_assoc; [reflexivity|].
        apply prefix_length in Hp. cbn [String.length] in Hp. lia.
      * destruct (prefix lit (String c (x ++ blk ++ y))) eqn:Hp'.
        -- apply (no_straddle lit blk (String c x) y Hlit Hblk) in Hp';
             [congruence | discriminate].
        -- rewrite IH by lia. reflexivity.
    + cbn [append scan]. apply IH. cbn [String.length] in Hn. lia.
Qed.

Lemma replace_all_around (lit r blk out x y : string) :
  ph_shape lit -> ph_shape blk ->
  replace_all lit r (blk ++ y) = out ++ replace_all lit r y ->
  replace_all lit r (x ++ blk ++ y)
  = replace_all lit r x ++ out ++ replace_all lit r y.
Proof.
  intros Hlit Hblk Hb. unfold replace_all at 1 2.
  apply scan_around; [assumption.. | lia].
Qed.

(* ================================================================= *)
(** ** One scan over a template given by its pieces *)

(** no placeholder starts in plain text *)
Lemma no_match_plain (h : ascii) (t b rest : string) :
  h = "$"%char \/ h = "{"%char ->
  plain_ok b = true ->
  no_match_in (String h (String "{" t)) b rest.
Proof.
  intros Hh. induction b as [|c b IH]; intros H; [exact I|].
  cbn [plain_ok] in H. apply andb_true_iff in H as [Hc Hb].
  split; [|now apply IH].
  rewrite prefix_cons. destruct (Ascii.eqb_spec h c) as [<-|Hne]; [|reflexivity].
  cbn [andb].
  assert (Hguard : Ascii.eqb h "$" || Ascii.eqb h "{" = true)
    by (destruct Hh as [->| ->]; reflexivity).
  rewrite Hguard in Hc. destruct b as [|d b]; [discriminate|].
  cbn [append]. rewrite prefix_cons.
  apply negb_true_iff in Hc. rewrite Ascii.eqb_sym in Hc. now rewrite Hc.
Qed.

Lemma template_ok_cons (seg : segment) (segs : list segment) :
  template_ok (seg :: segs) = true ->
  segment_ok seg = true /\ template_ok segs = true.
Proof. intros H. now apply andb_true_iff in H. Qed.

(** the scan for [${k}] replaces the pieces [Dollar k] and no other *)
Lemma replace_all_dollar (k r : string) (segs : list segment) :
  name_ok k = true -> template_ok segs = true ->
  replace_all (dollar_placeholder k) r (render segs)
  = render (map (subst_dollar k r) segs).
Proof.
  unfold subst_dollar.
  intros Hk. induction segs as [|seg segs IH]; intros Hok; [reflexivity|].
  apply template_ok_cons in Hok as [Hseg Hsegs]. specialize (IH Hsegs).
  cbn [render map]. destruct seg as [text | n | n]; cbn [segment_ok] in Hseg.
  - cbn [render_segment]. rewrite replace_all_block, IH; [reflexivity|].
    rewrite dollar_placeholder_eq. apply no_match_plain; auto.
  - destruct (String.eqb_spec n k) as [->|Hne]; cbn [render_segment].
    + rewrite replace_all_match, IH; [reflexivity | discriminate].
    + rewrite replace_all_block, IH; [reflexivity|].
      apply no_match_shape; auto with placeholders.
  - cbn [render_segment]. rewrite replace_all_block, IH; [reflexivity|].
    apply no_match_shape; auto with placeholders.
Qed.

(** the scan for [{{k}}] replaces the pieces [Brace k] and no other *)
Lemma replace_all_brace (k r : string) (segs : list segment) :
  name_ok k = true -> template_ok segs = true ->
  replace_all (brace_placeholder k) r (render segs)
  = render (map (subst_brace k r) segs).
Proof.
  unfold subst_brace.
  intros Hk. induction segs as [|seg segs IH]; intros Hok; [reflexivity|].
  apply template_ok_cons in Hok as [Hseg Hsegs]. specialize (IH Hsegs).
  cbn [render map]. destruct seg as [text | n | n]; cbn [segment_ok] in Hseg.
  - cbn [render_segment]. rewrite replace_all_block, IH; [reflexivity|].
    rewrite brace_placeholder_eq. apply no_match_plain; auto.
  - cbn [render_segment]. rewrite replace_all_block, IH; [reflexivity|].
    apply no_match_shape; auto with placeholders.
  - destruct (String.eqb_spec n k) as [->|Hne]; cbn [render_segment].
    + rewrite replace_all_match, IH; [reflexivity | discriminate].
    + rewrite replace_all_block, IH; [reflexivity|].
      apply no_match_shape; auto with placeholders.
Qed.

Lemma template_ok_subst_dollar (k r : string) (segs : list segment) :
  plain_ok r = true -> template_ok segs = true ->
  template_ok (map (subst_dollar k r) segs) = true.
Proof.
  intros Hr. induction segs as [|seg segs IH]; intros Hok; [reflexivity|].
  apply template_ok_cons in Hok as [Hseg Hsegs].
  cbn [map template_ok forallb]. apply andb_true_iff. split; [|now apply IH].
  destruct seg as [text | n | n]; cbn [subst_dollar]; try exact Hseg.
  now destruct (n =? k)%string.
Qed.

Lemma template_ok_subst_brace (k r : string) (segs : list segment) :
  plain_ok r = true -> template_ok segs = true ->
  template_ok (map (subst_brace k r) segs) = true.
Proof.
  intros Hr. induction segs as [|seg segs IH]; intros Hok; [reflexivity|].
  apply template_ok_cons in Hok as [Hseg Hsegs].
  cbn [map template_ok forallb]. apply andb_true_iff. split; [|now apply IH].
  destruct seg as [text | n | n]; cbn [subst_brace]; try exact Hseg.
  now destruct (n =? k)%string.
Qed.

Lemma resolve_dollar_cons (k : string) (v : pyval) (rest : dict pyval)
      (seg : segment) :
  resolve_dollar rest (subst_dollar k (py_str v) seg)
  = resolve_dollar ((k, v) :: rest) seg.
Proof.
  destruct seg as [text | n | n]; try reflexivity.
  cbn [subst_dollar resolve_dollar dict_get].
  now destruct (n =? k)%string.
Qed.

Lemma resolve_brace_cons (k : string) (v : pyval) (rest : dict pyval)
      (seg : segment) :
  resolve_brace rest (subst_brace k (py_str v) seg)
  = resolve_brace ((k, v) :: rest) seg.
Proof.
  destruct seg as [text | n | n]; try reflexivity.
  cbn [subst_brace resolve_brace dict_get].
  now destruct (n =? k)%string.
Qed.

Lemma value_ok_inv (v : pyval) :
  value_ok v = true ->
  plain_ok (py_str v) = true /\ mem backslash (py_str v) = false.
Proof.
  unfold value_ok. intros H. apply andb_true_iff in H as [H1 H2].
  now apply negb_true_iff in H2.
Qed.

(* ================================================================= *)
(** ** One loop over a template given by its pieces *)

(** The two loops differ in the placeholder they look for and in nothing
    else; what is needed of a placeholder syntax is assumed here once. *)
Section OneLoop.

Variable ph : string -> string.
Variable subst1 : string -> string -> segment -> segment.
Variable resolve : dict pyval -> segment -> segment.

Hypothesis scan_pieces :
  forall k r segs,
    name_ok k = true -> template_ok segs = true ->
    replace_all (ph k) r (render segs) = render (map (subst1 k r) segs).
Hypothesis subst1_ok :
  forall k r segs,
    plain_ok r = true -> template_ok segs = true ->
    template_ok (map (subst1 k r) segs) = true.
Hypothesis resolve_nil : forall seg, resolve [] seg = seg.
Hypothesis resolve_cons :
  forall k v rest seg,
    resolve rest (subst1 k (py_str v) seg) = resolve ((k, v) :: rest) seg.

Lemma replace_pass_pieces (variables : dict pyval) :
  names_ok variables = true -> values_ok variables = true ->
  forall segs, template_ok segs = true ->
    replace_pass ph variables (render segs)
    = Ok (render (map (resolve variables) segs))
    /\ template_ok (map (resolve variables) segs) = true.
Proof.
  induction variables as [|[k v] rest IH]; intros Hn Hv segs Hok.
  - cbn [replace_pass].
    rewrite (map_ext _ (fun seg => seg) resolve_nil), map_id. now split.
  - cbn [names_ok forallb fst] in Hn. apply andb_true_iff in Hn as [Hk Hn].
    cbn [values_ok forallb snd] in Hv. apply andb_true_iff in Hv as [Hval Hv].
    destruct (value_ok_inv _ Hval) as [Hplain Hbs].
    cbn [replace_pass]. rewrite re_sub_plain by exact Hbs. cbn [bind].
    rewrite scan_pieces by assumption.
    pose proof (subst1_ok k _ _ Hplain Hok) as Hok1.
    destruct (IH Hn Hv _ Hok1) as [Heq Hok2].
    rewrite map_map in Heq, Hok2.
    rewrite (map_ext _ _ (resolve_cons k v rest)) in Heq, Hok2.
    now split.
Qed.

End OneLoop.

Lemma resolve_dollar_nil (seg : segment) : resolve_dollar [] seg = seg.
Proof. now destruct seg. Qed.

Lemma resolve_brace_nil (seg : segment) : resolve_brace [] seg = seg.
Proof. now destruct seg. Qed.

Lemma replace_pass_dollar (variables : dict pyval) :
  names_ok variables = true -> values_ok variables = true ->
  forall segs, template_ok segs = true ->
    replace_pass dollar_placeholder variables (render segs)
    = Ok (render (map (resolve_dollar variables) segs))
    /\ template_ok (map (resolve_dollar variables) segs) = true.
Proof.
  apply (replace_pass_pieces dollar_placeholder subst_dollar resolve_dollar).
  - exact replace_all_dollar.
  - exact template_ok_subst_dollar.
  - exact resolve_dollar_nil.
  - exact resolve_dollar_cons.
Qed.

Lemma replace_pass_brace (variables : dict pyval) :
  names_ok variables = true -> values_ok variables = true ->
  forall segs, template_ok segs = true ->
    replace_pass brace_placeholder variables (render segs)
    = Ok (render (map (resolve_brace variables) segs))
    /\ template_ok (map (resolve_brace variables) segs) = true.
Proof.
  apply (replace_pass_pieces brace_placeholder subst_brace resolve_brace).
  - exact replace_all_brace.
  - exact template_ok_subst_brace.
  - exact resolve_brace_nil.
  - exact resolve_brace_cons.
Qed.

Lemma resolve_brace_dollar (variables : dict pyval) (seg : segment) :
  resolve_brace variables (resolve_dollar variables seg)
  = spec_resolve variables seg.
Proof.
  destruct seg as [text | n | n]; cbn [resolve_dollar resolve_brace spec_resolve];
    try reflexivity.
  now destruct (dict_get n variables).
Qed.

Lemma resolve_dollar_brace (variables : dict pyval) (seg : segment) :
  resolve_dollar variables (resolve_brace variables seg)
  = spec_resolve variables seg.
Proof.
  destruct seg as [text | n | n]; cbn [resolve_dollar resolve_brace spec_resolve];
    try reflexivity.
  now destruct (dict_get n variables).
Qed.

(** On a clean template and a clean mapping the two loops compute the
    substitution of the specification. *)
Lemma replace_variables_spec (segs : list segment) (variables : dict pyval) :
  template_ok segs = true ->
  names_ok variables = true -> values_ok variables = true ->
  replace_variables (render segs) variables
  = Ok (spec_substitute segs variables).
Proof.
  intros Hok Hn Hv. unfold replace_variables, spec_substitute.
  destruct (replace_pass_dollar variables Hn Hv segs Hok) as [-> Hok1].
  cbn [bind].
  destruct (replace_pass_brace variables Hn Hv _ Hok1) as [-> _].
  cbn [bind]. rewrite map_map.
  now rewrite (map_ext _ _ (resolve_brace_dollar variables)).
Qed.

Lemma replace_variables_swapped_spec (segs : list segment)
      (variables : dict pyval) :
  template_ok segs = true ->
  names_ok variables = true -> values_ok variables = true ->
  replace_variables_swapped (render segs) variables
  = Ok (spec_substitute segs variables).
Proof.
  intros Hok Hn Hv. unfold replace_variables_swapped, spec_substitute.
  destruct (replace_pass_brace variables Hn Hv segs Hok) as [-> Hok1].
  cbn [bind].
  destruct (replace_pass_dollar variables Hn Hv _ Hok1) as [-> _].
  cbn [bind]. rewrite map_map.
  now rewrite (map_ext _ _ (resolve_dollar_brace variables)).
Qed.

(* ================================================================= *)
(** ** Errors of a loop, and a loop around a foreign placeholder *)

(** a loop that raises on one text raises on every text, in either syntax:
    the replacements alone decide *)
Lemma replace_pass_raise (ph ph' : string -> string) (variables : dict pyval)
      (s s' : string) (e : exn) :
  replace_pass ph variables s = Raise e ->
  replace_pass ph' variables s' = Raise e.
Proof.
  revert s s'. induction variables as [|[k v] rest IH]; intros s s' H.
  - discriminate.
  - cbn [replace_pass] in *. unfold re_sub in *.
    destruct (parse_template (py_str v)) as [ps|e0]; cbn [bind] in *.
    + eapply IH, H.
    + exact H.
Qed.

Lemma replace_pass_app (ph : string -> string) (m m' : dict pyval) (s : string) :
  replace_pass ph (m ++ m')%list s
  = (t <- replace_pass ph m s ;; replace_pass ph m' t).
Proof.
  revert s. induction m as [|[k v] m IH]; intros s; [reflexivity|].
  cbn [app replace_pass].
  destruct (re_sub (ph k) (py_str v) s) as [t|e]; cbn [bind]; [apply IH | reflexivity].
Qed.

(** A block of placeholder shape that no placeholder of the mapping starts
    splits the work of a loop: the text before the block and the text
    behind it are rewritten as if each stood alone, the block stays. *)
Lemma replace_pass_around (ph : string -> string) (blk : string)
      (variables : dict pyval) :
  ph_shape blk ->
  (forall k, In k (dict_keys variables) ->
             ph_shape (ph k) /\ forall y, prefix (ph k) (blk ++ y) = false) ->
  forall x y,
    replace_pass ph variables (x ++ blk ++ y)
    = (a <- replace_pass ph variables x ;;
       b <- replace_pass ph variables y ;;
       Ok (a ++ blk ++ b)).
Proof.
  intros Hblk. induction variables as [|[k v] rest IH]; intros Hkeys x y.
  - reflexivity.
  - assert (Hrest : forall k', In k' (dict_keys rest) ->
               ph_shape (ph k') /\ forall y, prefix (ph k') (blk ++ y) = false)
      by (intros k' Hin; apply Hkeys; now right).
    destruct (Hkeys k (or_introl eq_refl)) as [Hsh H0].
    cbn [replace_pass].
    destruct (re_sub_cases (ph k) (py_str v)) as [(r & Hr) | (e & He)].
    + rewrite !Hr. cbn [bind].
      rewrite (replace_all_around (ph k) r blk blk x y Hsh Hblk).
      * apply (IH Hrest).
      * apply replace_all_block, no_match_shape; auto.
    + rewrite !He. reflexivity.
Qed.

Lemma dict_get_none_keys {V} (name : string) (d : dict V) :
  dict_get name d = None -> forall k, In k (dict_keys d) -> k <> name.
Proof.
  induction d as [|[k' v] d IH]; intros H k Hin; [destruct Hin|].
  cbn [dict_get] in H. destruct (String.eqb_spec name k') as [->|Hne];
    [discriminate|].
  cbn [dict_keys map fst] in Hin.
  destruct Hin as [<-|Hin]; [congruence | now apply IH].
Qed.

Lemma names_ok_keys (d : dict pyval) :
  names_ok d = true -> forall k, In k (dict_keys d) -> name_ok k = true.
Proof.
  unfold names_ok, dict_keys. intros H k Hin.
  apply in_map_iff in Hin as ([k' v] & <- & Hin).
  rewrite forallb_forall in H. exact (H _ Hin).
Qed.

(** both loops, around a foreign placeholder *)
Lemma replace_variables_around (blk : string) (variables : dict pyval) :
  ph_shape blk ->
  (forall k, In k (dict_keys variables) ->
             name_ok k = true
             /\ (forall y, prefix (dollar_placeholder k) (blk ++ y) = false)
             /\ (forall y, prefix (brace_placeholder k) (blk ++ y) = false)) ->
  forall x y,
    replace_variables (x ++ blk ++ y) variables
    = (a <- replace_variables x variables ;;
       b <- replace_variables y variables ;;
       Ok (a ++ blk ++ b)).
Proof.
  intros Hblk Hkeys x y. unfold replace_variables.
  rewrite (replace_pass_around dollar_placeholder blk variables Hblk).
  2:{ intros k Hin. destruct (Hkeys k Hin) as (Hk & Hd & _).
      split; [now apply dollar_shape | exact Hd]. }
  destruct (replace_pass dollar_placeholder variables x) as [a|e] eqn:Ha;
    cbn [bind]; [|reflexivity].
  destruct (replace_pass dollar_placeholder variables y) as [b|e] eqn:Hb;
    cbn [bind].
  2:{ rewrite (replace_pass_raise _ dollar_placeholder variables _ x e Hb) in Ha.
      discriminate. }
  rewrite (replace_pass_around brace_placeholder blk variables Hblk).
  2:{ intros k Hin. destruct (Hkeys k Hin) as (Hk & _ & Hb').
      split; [now apply brace_shape | exact Hb']. }
  destruct (replace_pass brace_placeholder variables a) as [a'|e];
    cbn [bind]; [|reflexivity].
  destruct (replace_pass brace_placeholder variables b) as [b'|e];
    reflexivity.
Qed.

(* ================================================================= *)
(** ** Facts about dictionaries, rows and the variable mapping *)

Lemma dict_get_set_eq {V} (k : string) (v : V) (d : dict V) :
  dict_get k (dict_set k v d) = Some v.
Proof.
  induction d as [|[k' v'] d IH]; cbn [dict_set dict_get].
  - now rewrite String.eqb_refl.
  - destruct (k =? k')%string eqn:E; cbn [dict_get]; rewrite E; auto.
Qed.

Lemma dict_get_set_neq {V} (k k' : string) (v : V) (d : dict V) :
  k <> k' -> dict_get k (dict_set k' v d) = dict_get k d.
Proof.
  intros Hne. induction d as [|[k0 v0] d IH]; cbn [dict_set dict_get].
  - apply String.eqb_neq in Hne. now rewrite Hne.
  - destruct (String.eqb_spec k' k0) as [->|Hne0]; cbn [dict_get].
    + apply String.eqb_neq in Hne. now rewrite Hne.
    + now rewrite IH.
Qed.

Lemma dict_keys_set {V} (k : string) (v : V) (d : dict V) (x : string) :
  In x (dict_keys (dict_set k v d)) <-> x = k \/ In x (dict_keys d).
Proof.
  unfold dict_keys. induction d as [|[k' v'] d IH]; cbn [dict_set map fst In].
  - intuition.
  - destruct (String.eqb_spec k k') as [->|Hne]; cbn [map fst In].
    + intuition.
    + rewrite IH. intuition.
Qed.

Lemma dict_keys_set_NoDup {V} (k : string) (v : V) (d : dict V) :
  NoDup (dict_keys d) -> NoDup (dict_keys (dict_set k v d)).
Proof.
  induction d as [|[k' v'] d IH]; intros H.
  - cbn. constructor; [intros [] | constructor].
  - cbn [dict_set]. destruct (String.eqb_spec k k') as [->|Hne].
    + exact H.
    + cbn [dict_keys map fst] in *. inversion H as [|? ? Hnin Hnd]; subst.
      constructor; [|now apply IH].
      intros Hin. apply (dict_keys_set k v d k') in Hin.
      destruct Hin as [->|Hin]; [congruence | contradiction].
Qed.

(** a property of the entries that [dict_set] keeps *)
Lemma dict_set_forallb {V} (q : string -> V -> bool) (k : string) (v : V)
      (d : dict V) :
  q k v = true ->
  forallb (fun kv => q (fst kv) (snd kv)) d = true ->
  forallb (fun kv => q (fst kv) (snd kv)) (dict_set k v d) = true.
Proof.
  intros Hq. induction d as [|[k' v'] d IH]; intros H; cbn [dict_set forallb].
  - cbn [fst snd]. now rewrite Hq.
  - cbn [forallb fst snd] in H. apply andb_true_iff in H as [H1 H2].
    destruct (String.eqb_spec k k') as [->|Hne]; cbn [forallb fst snd].
    + now rewrite Hq.
    + now rewrite H1, IH.
Qed.

Lemma dict_get_forallb {V} (q : string -> V -> bool) (k : string) (v : V)
      (d : dict V) :
  forallb (fun kv => q (fst kv) (snd kv)) d = true ->
  dict_get k d = Some v -> q k v = true.
Proof.
  induction d as [|[k' v'] d IH]; intros H Hg; [discriminate|].
  cbn [forallb fst snd] in H. apply andb_true_iff in H as [H1 H2].
  cbn [dict_get] in Hg. destruct (String.eqb_spec k k') as [->|Hne].
  - now injection Hg as <-.
  - now apply IH.
Qed.

(** *** The rows of [csv.DictReader] *)

Lemma fold_restval_get (cols : list string) (d : dict pyval) (col : string) :
  dict_get col (fold_left (fun d key => dict_set key PNone d) cols d)
  = if existsb (String.eqb col) cols then Some PNone else dict_get col d.
Proof.
  revert d. induction cols as [|c cols IH]; intros d; [reflexivity|].
  cbn [fold_left existsb]. rewrite IH.
  destruct (existsb (String.eqb col) cols); [now rewrite orb_true_r|].
  rewrite orb_false_r. destruct (String.eqb_spec col c) as [->|Hne].
  - apply dict_get_set_eq.
  - now apply dict_get_set_neq.
Qed.

Lemma existsb_eqb_In (col : string) (cols : list string) :
  existsb (String.eqb col) cols = true <-> In col cols.
Proof.
  rewrite existsb_exists. split.
  - intros (x & Hin & Heq). apply String.eqb_eq in Heq. now subst.
  - intros Hin. exists col. split; [exact Hin | apply String.eqb_refl].
Qed.

Lemma dict_of_pairs_get_aux {V} (l : list (string * V)) (d : dict V)
      (col : string) :
  In col (map fst l) \/ dict_get col d <> None ->
  dict_get col (fold_left (fun d kv => dict_set (fst kv) (snd kv) d) l d)
  <> None.
Proof.
  revert d. induction l as [|[k v] l IH]; intros d H.
  - destruct H as [[]|H]; exact H.
  - cbn [fold_left fst snd]. apply IH.
    destruct (String.eqb_spec col k) as [->|Hne].
    + right. rewrite dict_get_set_eq. discriminate.
    + destruct H as [[Heq|Hin]|H].
      * cbn [fst] in Heq. congruence.
      * now left.
      * right. now rewrite dict_get_set_neq.
Qed.

(** a column the line has no field for is bound to [None] *)
Lemma DictReader_row_short (fieldnames line : list string) (col : string) :
  In col (skipn (List.length line) fieldnames) ->
  dict_get col (DictReader_row fieldnames line) = Some PNone.
Proof.
  intros Hin. unfold DictReader_row. rewrite fold_restval_get.
  apply existsb_eqb_In in Hin. now rewrite Hin.
Qed.

(** every column of the header is a key of every row *)
Lemma DictReader_row_total (fieldnames line : list string) (col : string) :
  In col fieldnames ->
  dict_get col (DictReader_row fieldnames line) <> None.
Proof.
  intros Hin. unfold DictReader_row. rewrite fold_restval_get.
  destruct (existsb (String.eqb col) (skipn (List.length line) fieldnames))
    eqn:E; [discriminate|].
  apply dict_of_pairs_get_aux. left.
  rewrite <- (firstn_skipn (List.length line) fieldnames) in Hin.
  apply in_app_or in Hin as [Hin|Hin].
  - assert (Hlen : List.length (firstn (List.length line) fieldnames)
                   <= List.length (map PStr line))
      by (rewrite length_firstn, length_map; lia).
    rewrite <- (firstn_skipn (List.length line) fieldnames).
    revert Hin Hlen. generalize (firstn (List.length line) fieldnames).
    generalize (skipn (List.length line) fieldnames).
    generalize (map PStr line).
    intros vs tl hd. revert vs. induction hd as [|h hd IH]; intros vs Hin Hlen.
    + destruct Hin.
    + destruct vs as [|v vs]; [cbn in Hlen; lia|].
      cbn [app combine map fst]. destruct Hin as [->|Hin]; [now left|].
      right. apply IH; [exact Hin | cbn in Hlen; lia].
  - apply existsb_eqb_In in Hin. congruence.
Qed.

(** *** The variable mapping *)

Lemma build_variables_keys (row : dict pyval) (cols : list string) :
  forall acc vars, build_variables row cols acc = Ok vars ->
    forall x, In x (dict_keys vars) <-> In x cols \/ In x (dict_keys acc).
Proof.
  induction cols as [|c cols IH]; intros acc vars H x; cbn [build_variables] in H.
  - injection H as <-. cbn [In]. intuition.
  - destruct (dict_get c row) as [v|]; [|discriminate].
    rewrite (IH _ _ H x), dict_keys_set. cbn [In]. intuition.
Qed.

Lemma build_variables_NoDup (row : dict pyval) (cols : list string) :
  forall acc vars, build_variables row cols acc = Ok vars ->
    NoDup (dict_keys acc) -> NoDup (dict_keys vars).
Proof.
  induction cols as [|c cols IH]; intros acc vars H Hnd; cbn [build_variables] in H.
  - now injection H as <-.
  - destruct (dict_get c row) as [v|]; [|discriminate].
    apply (IH _ _ H). now apply dict_keys_set_NoDup.
Qed.

Lemma build_variables_get (row : dict pyval) (cols : list string) :
  forall acc vars, build_variables row cols acc = Ok vars ->
    forall col, dict_get col vars
                = if existsb (String.eqb col) cols then dict_get col row
                  else dict_get col acc.
Proof.
  induction cols as [|c cols IH]; intros acc vars H col; cbn [build_variables] in H.
  - now injection H as <-.
  - destruct (dict_get c row) as [v|] eqn:Hc; [|discriminate].
    rewrite (IH _ _ H col). cbn [existsb].
    destruct (existsb (String.eqb col) cols); [now rewrite orb_true_r|].
    rewrite orb_false_r. destruct (String.eqb_spec col c) as [->|Hne].
    + now rewrite dict_get_set_eq.
    + now apply dict_get_set_neq.
Qed.

Lemma build_variables_total (row : dict pyval) (cols : list string) :
  (forall col, In col cols -> dict_get col row <> None) ->
  forall acc, exists vars, build_variables row cols acc = Ok vars.
Proof.
  induction cols as [|c cols IH]; intros Hrow acc; cbn [build_variables].
  - now exists acc.
  - destruct (dict_get c row) as [v|] eqn:Hc.
    + apply IH. intros col Hin. apply Hrow. now right.
    + exfalso. apply (Hrow c); [now left | exact Hc].
Qed.

Lemma build_variables_forallb (q : string -> pyval -> bool)
      (row : dict pyval) (cols : list string) :
  (forall col v, In col cols -> dict_get col row = Some v -> q col v = true) ->
  forall acc vars, build_variables row cols acc = Ok vars ->
    forallb (fun kv => q (fst kv) (snd kv)) acc = true ->
    forallb (fun kv => q (fst kv) (snd kv)) vars = true.
Proof.
  induction cols as [|c cols IH]; intros Hq acc vars H Hacc;
    cbn [build_variables] in H.
  - now injection H as <-.
  - destruct (dict_get c row) as [v|] eqn:Hc; [|discriminate].
    apply (IH (fun col v Hin => Hq col v (or_intror Hin)) _ _ H).
    apply dict_set_forallb; [|exact Hacc].
    apply (Hq c v); [now left | exact Hc].
Qed.


(* ================================================================= *)
(** ** Scans on pieces: values that hold placeholders *)

Lemma render_app (a b : list segment) :
  render (a ++ b)%list = render a ++ render b.
Proof.
  induction a as [|seg a IH]; cbn [app render]; [reflexivity|].
  now rewrite IH, append_assoc.
Qed.

Lemma template_ok_app (a b : list segment) :
  template_ok (a ++ b)%list = template_ok a && template_ok b.
Proof. unfold template_ok. apply forallb_app. Qed.

Lemma render_single (seg : segment) : render [seg] = render_segment seg.
Proof.
  cbn [render]. generalize (render_segment seg). intros s.
  induction s as [|c s IH]; cbn [append]; [reflexivity | now rewrite IH].
Qed.

(** putting the text of a value in is putting its pieces in *)
Lemma render_splice_dollar (k : string) (value segs : list segment) :
  render (map (subst_dollar k (render value)) segs)
  = render (splice_dollar k value segs).
Proof.
  unfold splice_dollar.
  induction segs as [|seg segs IH]; [reflexivity|].
  cbn [map flat_map render]. rewrite render_app, IH.
  f_equal. destruct seg as [text | n | n]; cbn [subst_dollar];
    try (now rewrite render_single).
  destruct (n =? k)%string; [reflexivity | now rewrite render_single].
Qed.

Lemma render_splice_brace (k : string) (value segs : list segment) :
  render (map (subst_brace k (render value)) segs)
  = render (splice_brace k value segs).
Proof.
  unfold splice_brace.
  induction segs as [|seg segs IH]; [reflexivity|].
  cbn [map flat_map render]. rewrite render_app, IH.
  f_equal. destruct seg as [text | n | n]; cbn [subst_brace];
    try (now rewrite render_single).
  destruct (n =? k)%string; [reflexivity | now rewrite render_single].
Qed.

Lemma template_ok_splice_dollar (k : string) (value segs : list segment) :
  template_ok value = true -> template_ok segs = true ->
  template_ok (splice_dollar k value segs) = true.
Proof.
  intros Hv. unfold splice_dollar.
  induction segs as [|seg segs IH]; intros Hok; [reflexivity|].
  apply template_ok_cons in Hok as [Hseg Hsegs].
  cbn [flat_map]. rewrite template_ok_app, (IH Hsegs), andb_true_r.
  destruct seg as [text | n | n]; cbn [segment_ok] in Hseg;
    try (cbn [template_ok forallb segment_ok]; now rewrite Hseg).
  destruct (n =? k)%string;
    [exact Hv | cbn [template_ok forallb segment_ok]; now rewrite Hseg].
Qed.

Lemma template_ok_splice_brace (k : string) (value segs : list segment) :
  template_ok value = true -> template_ok segs = true ->
  template_ok (splice_brace k value segs) = true.
Proof.
  intros Hv. unfold splice_brace.
  induction segs as [|seg segs IH]; intros Hok; [reflexivity|].
  apply template_ok_cons in Hok as [Hseg Hsegs].
  cbn [flat_map]. rewrite template_ok_app, (IH Hsegs), andb_true_r.
  destruct seg as [text | n | n]; cbn [segment_ok] in Hseg;
    try (cbn [template_ok forallb segment_ok]; now rewrite Hseg).
  destruct (n =? k)%string;
    [exact Hv | cbn [template_ok forallb segment_ok]; now rewrite Hseg].
Qed.

(** One loop of [replace_variables] on a template given by its pieces, for
    values given by their pieces: what is needed of a placeholder syntax
    is assumed once. *)
Section OneLoopOnPieces.

Variable ph : string -> string.
Variable subst1 : string -> string -> segment -> segment.
Variable splice : string -> list segment -> list segment -> list segment.

Hypothesis scan_pieces :
  forall k r segs,
    name_ok k = true -> template_ok segs = true ->
    replace_all (ph k) r (render segs) = render (map (subst1 k r) segs).
Hypothesis render_splice :
  forall k value segs,
    render (map (subst1 k (render value)) segs) = render (splice k value segs).
Hypothesis splice_ok :
  forall k value segs,
    template_ok value = true -> template_ok segs = true ->
    template_ok (splice k value segs) = true.

Lemma replace_pass_seq (variables : dict pyval) :
  forall (m : piece_dict) (segs : list segment),
    pieces_of variables m = true -> pieces_ok m = true ->
    template_ok segs = true ->
    replace_pass ph variables (render segs)
    = Ok (render (seq_pass splice m segs))
    /\ template_ok (seq_pass splice m segs) = true.
Proof.
  induction variables as [|[k v] rest IH]; intros [|[k' value] m] segs Hp Hm Hok;
    try discriminate Hp.
  - now split.
  - cbn [pieces_of] in Hp. apply andb_true_iff in Hp as [Hp Hrest].
    apply andb_true_iff in Hp as [Hk Hv].
    apply String.eqb_eq in Hk. apply String.eqb_eq in Hv. subst k'.
    cbn [pieces_ok forallb fst snd] in Hm. apply andb_true_iff in Hm as [Hm Hmrest].
    apply andb_true_iff in Hm as [Hm Hbs]. apply andb_true_iff in Hm as [Hname Hval].
    apply negb_true_iff in Hbs.
    cbn [replace_pass]. rewrite Hv, re_sub_plain by exact Hbs. cbn [bind].
    rewrite scan_pieces, render_splice by assumption.
    cbn [seq_pass fold_left fst snd].
    apply (IH m _ Hrest Hmrest). now apply splice_ok.
Qed.

End OneLoopOnPieces.

(** both loops on pieces *)
Lemma replace_variables_seq (variables : dict pyval) (m : piece_dict)
      (segs : list segment) :
  pieces_of variables m = true -> pieces_ok m = true ->
  template_ok segs = true ->
  replace_variables (render segs) variables
  = Ok (render (seq_substitute m segs)).
Proof.
  intros Hp Hm Hok. unfold replace_variables, seq_substitute.
  destruct (replace_pass_seq dollar_placeholder subst_dollar splice_dollar
              replace_all_dollar render_splice_dollar template_ok_splice_dollar
              variables m segs Hp Hm Hok) as [-> Hok1].
  cbn [bind].
  destruct (replace_pass_seq brace_placeholder subst_brace splice_brace
              replace_all_brace render_splice_brace template_ok_splice_brace
              variables m _ Hp Hm Hok1) as [-> _].
  reflexivity.
Qed.

(** *** The scans, piece by piece *)

Lemma seq_pass_app_dict
      (splice : string -> list segment -> list segment -> list segment)
      (m1 m2 : piece_dict) (segs : list segment) :
  seq_pass splice (m1 ++ m2)%list segs
  = seq_pass splice m2 (seq_pass splice m1 segs).
Proof. unfold seq_pass. apply fold_left_app. Qed.

Lemma seq_pass_cons
      (splice : string -> list segment -> list segment -> list segment)
      (k : string) (value : list segment) (m : piece_dict)
      (segs : list segment) :
  seq_pass splice ((k, value) :: m) segs
  = seq_pass splice m (splice k value segs).
Proof. reflexivity. Qed.

Lemma splice_dollar_app (k : string) (value a b : list segment) :
  splice_dollar k value (a ++ b)%list
  = (splice_dollar k value a ++ splice_dollar k value b)%list.
Proof. apply flat_map_app. Qed.

Lemma splice_brace_app (k : string) (value a b : list segment) :
  splice_brace k value (a ++ b)%list
  = (splice_brace k value a ++ splice_brace k value b)%list.
Proof. apply flat_map_app. Qed.

Lemma seq_pass_dollar_app (m : piece_dict) (a b : list segment) :
  seq_pass splice_dollar m (a ++ b)%list
  = (seq_pass splice_dollar m a ++ seq_pass splice_dollar m b)%list.
Proof.
  revert a b. induction m as [|[k value] m IH]; intros a b; [reflexivity|].
  rewrite !seq_pass_cons, splice_dollar_app. apply IH.
Qed.

Lemma seq_pass_brace_app (m : piece_dict) (a b : list segment) :
  seq_pass splice_brace m (a ++ b)%list
  = (seq_pass splice_brace m a ++ seq_pass splice_brace m b)%list.
Proof.
  revert a b. induction m as [|[k value] m IH]; intros a b; [reflexivity|].
  rewrite !seq_pass_cons, splice_brace_app. apply IH.
Qed.

(** a scan leaves the pieces it does not look for *)
Lemma splice_dollar_unchanged (k : string) (value segs : list segment) :
  no_dollar_of [k] segs = true -> splice_dollar k value segs = segs.
Proof.
  unfold splice_dollar. induction segs as [|seg segs IH]; intros H; [reflexivity|].
  cbn [no_dollar_of forallb] in H. apply andb_true_iff in H as [Hseg Hsegs].
  cbn [flat_map]. rewrite (IH Hsegs).
  destruct seg as [text | n | n]; try reflexivity.
  unfold is_key in Hseg. cbn [existsb] in Hseg. rewrite orb_false_r in Hseg.
  apply negb_true_iff in Hseg. now rewrite Hseg.
Qed.

Lemma splice_brace_unchanged (k : string) (value segs : list segment) :
  no_brace_of [k] segs = true -> splice_brace k value segs = segs.
Proof.
  unfold splice_brace. induction segs as [|seg segs IH]; intros H; [reflexivity|].
  cbn [no_brace_of forallb] in H. apply andb_true_iff in H as [Hseg Hsegs].
  cbn [flat_map]. rewrite (IH Hsegs).
  destruct seg as [text | n | n]; try reflexivity.
  unfold is_key in Hseg. cbn [existsb] in Hseg. rewrite orb_false_r in Hseg.
  apply negb_true_iff in Hseg. now rewrite Hseg.
Qed.

Lemma no_dollar_of_cons (k : string) (keys : list string) (segs : list segment) :
  no_dollar_of (k :: keys) segs = true ->
  no_dollar_of [k] segs = true /\ no_dollar_of keys segs = true.
Proof.
  unfold no_dollar_of. induction segs as [|seg segs IH]; intros H; [now split|].
  cbn [forallb] in *. apply andb_true_iff in H as [Hseg Hsegs].
  destruct (IH Hsegs) as [H1 H2]. rewrite H1, H2, !andb_true_r.
  destruct seg as [text | n | n]; try now split.
  unfold is_key in *. cbn [existsb] in *. rewrite orb_false_r.
  apply negb_true_iff in Hseg. apply orb_false_iff in Hseg as [Ha Hb].
  rewrite Ha, Hb. now split.
Qed.

Lemma no_brace_of_cons (k : string) (keys : list string) (segs : list segment) :
  no_brace_of (k :: keys) segs = true ->
  no_brace_of [k] segs = true /\ no_brace_of keys segs = true.
Proof.
  unfold no_brace_of. induction segs as [|seg segs IH]; intros H; [now split|].
  cbn [forallb] in *. apply andb_true_iff in H as [Hseg Hsegs].
  destruct (IH Hsegs) as [H1 H2]. rewrite H1, H2, !andb_true_r.
  destruct seg as [text | n | n]; try now split.
  unfold is_key in *. cbn [existsb] in *. rewrite orb_false_r.
  apply negb_true_iff in Hseg. apply orb_false_iff in Hseg as [Ha Hb].
  rewrite Ha, Hb. now split.
Qed.

(** a loop leaves the pieces none of its scans looks for *)
Lemma seq_pass_dollar_unchanged (m : piece_dict) (segs : list segment) :
  no_dollar_of (piece_keys m) segs = true ->
  seq_pass splice_dollar m segs = segs.
Proof.
  induction m as [|[k value] m IH]; intros H; [reflexivity|].
  cbn [piece_keys map fst] in H. apply no_dollar_of_cons in H as [H1 H2].
  rewrite seq_pass_cons, splice_dollar_unchanged by exact H1.
  now apply IH.
Qed.

Lemma seq_pass_brace_unchanged (m : piece_dict) (segs : list segment) :
  no_brace_of (piece_keys m) segs = true ->
  seq_pass splice_brace m segs = segs.
Proof.
  induction m as [|[k value] m IH]; intros H; [reflexivity|].
  cbn [piece_keys map fst] in H. apply no_brace_of_cons in H as [H1 H2].
  rewrite seq_pass_cons, splice_brace_unchanged by exact H1.
  now apply IH.
Qed.

Lemma no_dollar_of_brace (keys : list string) (n : string) :
  no_dollar_of keys [Brace n] = true.
Proof. reflexivity. Qed.

Lemma no_dollar_of_absent (keys : list string) (a : string) :
  is_key a keys = false -> no_dollar_of keys [Dollar a] = true.
Proof. intros H. cbn. now rewrite H. Qed.

Lemma no_brace_of_absent (keys : list string) (a : string) :
  is_key a keys = false -> no_brace_of keys [Brace a] = true.
Proof. intros H. cbn. now rewrite H. Qed.

Lemma splice_dollar_hit (a : string) (value : list segment) :
  splice_dollar a value [Dollar a] = value.
Proof.
  unfold splice_dollar. cbn [flat_map]. rewrite String.eqb_refl. apply app_nil_r.
Qed.

Lemma splice_brace_hit (a : string) (value : list segment) :
  splice_brace a value [Brace a] = value.
Proof.
  unfold splice_brace. cbn [flat_map]. rewrite String.eqb_refl. apply app_nil_r.
Qed.

(** what becomes of a [${a}] of the template: the value of [a] as the
    [${NAME}] scans behind the one of [a] leave it, then all [{{NAME}}]
    scans *)
Lemma seq_substitute_dollar (m1 m2 : piece_dict) (a : string)
      (value : list segment) :
  is_key a (piece_keys m1) = false ->
  seq_substitute (m1 ++ (a, value) :: m2)%list [Dollar a]
  = seq_pass splice_brace (m1 ++ (a, value) :: m2)%list
             (seq_pass splice_dollar m2 value).
Proof.
  intros Ha. unfold seq_substitute. f_equal.
  rewrite seq_pass_app_dict.
  rewrite (seq_pass_dollar_unchanged m1 [Dollar a])
    by now apply no_dollar_of_absent.
  now rewrite seq_pass_cons, splice_dollar_hit.
Qed.

(** what becomes of a [{{a}}] of the template: the value of [a] as the
    [{{NAME}}] scans behind the one of [a] leave it *)
Lemma seq_substitute_brace (m1 m2 : piece_dict) (a : string)
      (value : list segment) :
  is_key a (piece_keys m1) = false ->
  seq_substitute (m1 ++ (a, value) :: m2)%list [Brace a]
  = seq_pass splice_brace m2 value.
Proof.
  intros Ha. unfold seq_substitute.
  rewrite (seq_pass_dollar_unchanged _ [Brace a]) by apply no_dollar_of_brace.
  rewrite seq_pass_app_dict.
  rewrite (seq_pass_brace_unchanged m1 [Brace a])
    by now apply no_brace_of_absent.
  now rewrite seq_pass_cons, splice_brace_hit.
Qed.

(* ================================================================= *)
(** * The claims *)

(* ----------------------------------------------------------------- *)
(** ** C1 *)

(** C1, as amended.  Take a template made of plain text and of
    placeholders [${NAME}] and [{{NAME}}] whose names hold none of [$],
    [{], [}], where plain text holds neither [${] nor [{{] and does not
    end in [$] or [{]; take a mapping whose names are as clean and whose
    values, as strings, are plain text without backslash.  Then the output
    of [replace_variables] is the template with every placeholder of a
    known variable replaced by that variable's string value, and every
    other piece as it was. *)
Theorem C1_substitution_on_clean_input
        (segs : list segment) (variables : dict pyval) :
  template_ok segs = true ->
  names_ok variables = true ->
  values_ok variables = true ->
  replace_variables (render segs) variables
  = Ok (spec_substitute segs variables).
Proof.
  intros Hok Hn Hv. unfold replace_variables, spec_substitute.
  (* the [${NAME}] loop resolves the pieces [Dollar] *)
  destruct (replace_pass_dollar variables Hn Hv segs Hok) as [Hdollar Hok1].
  rewrite Hdollar. cbn [bind].
  (* the [{{NAME}}] loop resolves the pieces [Brace] of what is left *)
  destruct (replace_pass_brace variables Hn Hv _ Hok1) as [Hbrace _].
  rewrite Hbrace. cbn [bind].
  rewrite map_map. f_equal. f_equal.
  apply map_ext. intros seg. apply resolve_brace_dollar.
Qed.

Lemma C1_substitution_on_clean_input_witness :
  let segs := [Plain "{ host: "; Dollar "SERVER_IP"; Plain ", port: ";
               Brace "PORT"; Plain ", user: "; Dollar "USERNAME";
               Plain " } costs $5 "; Dollar "UNKNOWN"] in
  let variables := [("SERVER_IP", PStr "192.168.1.10"); ("PORT", PStr "8080");
                    ("USERNAME", PStr "{admin}")] in
  template_ok segs = true /\ names_ok variables = true
  /\ values_ok variables = true
  /\ replace_variables
       "{ host: ${SERVER_IP}, port: {{PORT}}, user: ${USERNAME} } costs $5 ${UNKNOWN}"
       variables
     = Ok "{ host: 192.168.1.10, port: 8080, user: {admin} } costs $5 ${UNKNOWN}".
Proof.
  intros segs variables.
  split; [reflexivity|]. split; [reflexivity|]. split; [reflexivity|].
  exact (C1_substitution_on_clean_input segs variables
           eq_refl eq_refl eq_refl).
Defined.

(** C1 as stated fails.  A value with a backslash is not put in as it is:
    [\t] becomes a tab, [\d] makes [re.sub] raise.  A value that holds a
    placeholder is read again by the later scans.  A [$] at the end of
    plain text can join the text behind an empty value into a new
    placeholder.  A column name with placeholder characters can make a
    placeholder of the mapping out of two placeholders of the template. *)
Lemma C1_counterexample :
  (replace_variables (render [Plain "path="; Dollar "P"])
                     [("P", PStr "C:\temp")]
   = Ok ("path=C:" ++ String (ascii_of_nat 9) "emp")
   /\ spec_substitute [Plain "path="; Dollar "P"] [("P", PStr "C:\temp")]
      = "path=C:\temp")
  /\ replace_variables (render [Plain "path="; Dollar "P"])
                       [("P", PStr "C:\dir")]
     = Raise (ReError "bad escape")
  /\ (replace_variables (render [Dollar "A"])
                        [("A", PStr "${B}"); ("B", PStr "x")]
      = Ok "x"
      /\ spec_substitute [Dollar "A"] [("A", PStr "${B}"); ("B", PStr "x")]
         = "${B}")
  /\ (replace_variables (render [Plain "$"; Dollar "A"; Plain "{B}"])
                        [("A", PStr ""); ("B", PStr "x")]
      = Ok "x"
      /\ spec_substitute [Plain "$"; Dollar "A"; Plain "{B}"]
                         [("A", PStr ""); ("B", PStr "x")]
         = "${B}")
  /\ (replace_variables (render [Dollar "a"; Dollar "U"]) [("a}${U", PStr "x")]
      = Ok "x"
      /\ spec_substitute [Dollar "a"; Dollar "U"] [("a}${U", PStr "x")]
         = "${a}${U}")
  /\ ~ (forall segs variables,
           template_ok segs = true -> names_ok variables = true ->
           replace_variables (render segs) variables
           = Ok (spec_substitute segs variables)).
Proof.
  repeat split; try reflexivity.
  intros H.
  specialize (H [Plain "path="; Dollar "P"] [("P", PStr "C:\temp")]
                eq_refl eq_refl).
  vm_compute in H. discriminate H.
Qed.

(* ----------------------------------------------------------------- *)
(** ** C2 *)

Lemma seq_substitute_app (m : piece_dict) (a b : list segment) :
  seq_substitute m (a ++ b)%list
  = (seq_substitute m a ++ seq_substitute m b)%list.
Proof.
  unfold seq_substitute. now rewrite seq_pass_dollar_app, seq_pass_brace_app.
Qed.

Lemma pieces_ok_entry (m1 m2 : piece_dict) (a : string) (value : list segment) :
  pieces_ok (m1 ++ (a, value) :: m2)%list = true ->
  name_ok a = true /\ template_ok value = true.
Proof.
  unfold pieces_ok. rewrite forallb_app. cbn [forallb fst snd]. intros H.
  apply andb_true_iff in H as [_ H]. apply andb_true_iff in H as [H _].
  apply andb_true_iff in H as [H _]. now apply andb_true_iff in H.
Qed.

(** C2, as amended.  Substitution is not repeated, it is a fixed sequence
    of scans: [${NAME}] for each variable in mapping order, then
    [{{NAME}}] for each variable in mapping order, each scan working on
    what the scans before it have left.  Take a template of plain text and
    clean placeholders (see C1) and a mapping with clean names whose
    values are such texts themselves, without backslash, given by their
    pieces; let [a] be any variable of the mapping, with the variables
    [m1] before it and [m2] behind it.  Then
    - the output is the template with the scans done piece by piece, each
      piece of the template by itself;
    - the value put in for a [${a}] is read by the [${NAME}] scans of the
      variables behind [a] and by the [{{NAME}}] scans, and by no other
      scan; the value put in for a [{{a}}] is read by the [{{NAME}}] scans
      of the variables behind [a], and by no other scan;
    - so the value put in is in the output as it is whenever none of its
      placeholders is looked for by one of those later scans, also when it
      holds placeholders of the variables before [a], or of [a]. *)
Theorem C2_inserted_text_read_by_later_scans_only
        (segs : list segment) (variables : dict pyval)
        (m1 m2 : piece_dict) (a : string) (value : list segment) :
  template_ok segs = true ->
  pieces_of variables (m1 ++ (a, value) :: m2)%list = true ->
  pieces_ok (m1 ++ (a, value) :: m2)%list = true ->
  is_key a (piece_keys m1) = false ->
  replace_variables (render segs) variables
  = Ok (render (seq_substitute (m1 ++ (a, value) :: m2)%list segs))
  /\ (forall s1 s2,
         seq_substitute (m1 ++ (a, value) :: m2)%list (s1 ++ s2)%list
         = (seq_substitute (m1 ++ (a, value) :: m2)%list s1
            ++ seq_substitute (m1 ++ (a, value) :: m2)%list s2)%list)
  /\ seq_substitute (m1 ++ (a, value) :: m2)%list [Dollar a]
     = seq_pass splice_brace (m1 ++ (a, value) :: m2)%list
                (seq_pass splice_dollar m2 value)
  /\ seq_substitute (m1 ++ (a, value) :: m2)%list [Brace a]
     = seq_pass splice_brace m2 value
  /\ (forall before behind,
         template_ok before = true -> template_ok behind = true ->
         no_dollar_of (piece_keys m2) value = true ->
         no_brace_of (piece_keys (m1 ++ (a, value) :: m2)%list) value = true ->
         replace_variables (render (before ++ Dollar a :: behind)%list) variables
         = Ok (render (seq_substitute (m1 ++ (a, value) :: m2)%list before)
               ++ render value
               ++ render (seq_substitute (m1 ++ (a, value) :: m2)%list behind)))
  /\ (forall before behind,
         template_ok before = true -> template_ok behind = true ->
         no_brace_of (piece_keys m2) value = true ->
         replace_variables (render (before ++ Brace a :: behind)%list) variables
         = Ok (render (seq_substitute (m1 ++ (a, value) :: m2)%list before)
               ++ render value
               ++ render (seq_substitute (m1 ++ (a, value) :: m2)%list behind))).
Proof.
  intros Hok Hp Hm Ha.
  destruct (pieces_ok_entry m1 m2 a value Hm) as [Hname Hvalue].
  pose proof (seq_substitute_dollar m1 m2 a value Ha) as Hdollar.
  pose proof (seq_substitute_brace m1 m2 a value Ha) as Hbrace.
  split; [now apply replace_variables_seq|].
  split; [intros s1 s2; apply seq_substitute_app|].
  split; [exact Hdollar|]. split; [exact Hbrace|]. split.
  - intros before behind Hb1 Hb2 Hnd Hnb.
    rewrite (replace_variables_seq variables (m1 ++ (a, value) :: m2)%list)
      by (try assumption; rewrite template_ok_app, Hb1; cbn [template_ok forallb
            segment_ok andb]; fold (template_ok behind); now rewrite Hname, Hb2).
    change (before ++ Dollar a :: behind)%list
      with (before ++ [Dollar a] ++ behind)%list.
    rewrite !seq_substitute_app, Hdollar.
    rewrite (seq_pass_dollar_unchanged m2 value Hnd).
    rewrite (seq_pass_brace_unchanged _ value Hnb).
    now rewrite !render_app.
  - intros before behind Hb1 Hb2 Hnb.
    rewrite (replace_variables_seq variables (m1 ++ (a, value) :: m2)%list)
      by (try assumption; rewrite template_ok_app, Hb1; cbn [template_ok forallb
            segment_ok andb]; fold (template_ok behind); now rewrite Hname, Hb2).
    change (before ++ Brace a :: behind)%list
      with (before ++ [Brace a] ++ behind)%list.
    rewrite !seq_substitute_app, Hbrace.
    rewrite (seq_pass_brace_unchanged m2 value Hnb).
    now rewrite !render_app.
Qed.

Lemma C2_inserted_text_read_by_later_scans_only_witness :
  let variables := [("B", PStr "x"); ("A", PStr "${B}|{{B}}|${A}"); ("C", PNone)] in
  let m1 := [("B", [Plain "x"])] in
  let value := [Dollar "B"; Plain "|"; Brace "B"; Plain "|"; Dollar "A"] in
  let m2 := [("C", [Plain "None"])] in
  template_ok [Plain "a="; Dollar "A"; Plain " c="; Dollar "C"] = true
  /\ pieces_of variables (m1 ++ ("A", value) :: m2)%list = true
  /\ pieces_ok (m1 ++ ("A", value) :: m2)%list = true
  /\ is_key "A" (piece_keys m1) = false
  /\ replace_variables "a=${A} c=${C}" variables
     = Ok "a=${B}|x|${A} c=None"
  /\ replace_variables "{{A}}" variables = Ok "${B}|{{B}}|${A}".
Proof.
  intros variables m1 value m2.
  split; [reflexivity|]. split; [reflexivity|]. split; [reflexivity|].
  split; [reflexivity|].
  destruct (C2_inserted_text_read_by_later_scans_only
              [Plain "a="; Dollar "A"; Plain " c="; Dollar "C"]
              variables m1 m2 "A" value eq_refl eq_refl eq_refl eq_refl)
    as (Hout & _ & _ & _ & _ & Hbrace).
  split; [exact Hout|].
  exact (Hbrace [] [] eq_refl eq_refl eq_refl).
Defined.

(** C2 as stated fails: the value of [A] holds the placeholder of [B],
    whose scan comes later, and the text put in for [A] is replaced in its
    turn; likewise for a [{{B}}] put in by the [${A}] scan. *)
Lemma C2_counterexample :
  replace_variables "${A}" [("A", PStr "${B}"); ("B", PStr "x")] = Ok "x"
  /\ replace_variables "${A}" [("A", PStr "{{B}}"); ("B", PStr "x")] = Ok "x"
  /\ spec_substitute [Dollar "A"] [("A", PStr "${B}"); ("B", PStr "x")]
     = "${B}"
  /\ ~ (forall segs variables,
           template_ok segs = true -> names_ok variables = true ->
           Forall (fun kv => Str.mem Re.backslash (py_str (snd kv)) = false)
                  variables ->
           replace_variables (render segs) variables
           = Ok (spec_substitute segs variables)).
Proof.
  repeat split; try reflexivity.
  intros H.
  specialize (H [Dollar "A"] [("A", PStr "${B}"); ("B", PStr "x")]
                eq_refl eq_refl).
  assert (Hbs : Forall (fun kv : string * pyval =>
                          Str.mem Re.backslash (py_str (snd kv)) = false)
                       [("A", PStr "${B}"); ("B", PStr "x")])
    by (repeat constructor).
  specialize (H Hbs). vm_compute in H. discriminate H.
Qed.

(* ----------------------------------------------------------------- *)
(** ** C3 *)

(** C3, as amended.  On a template of plain text and placeholders with
    clean names, and a mapping with clean names whose values are plain text
    without backslash (the conditions of C1), the [${NAME}] loop followed
    by the [{{NAME}}] loop gives the same text as the two loops in the
    other order. *)
Theorem C3_pass_order_on_clean_input
        (segs : list segment) (variables : dict pyval) :
  template_ok segs = true ->
  names_ok variables = true ->
  values_ok variables = true ->
  replace_variables (render segs) variables
  = replace_variables_swapped (render segs) variables.
Proof.
  intros Hok Hn Hv.
  rewrite replace_variables_spec, replace_variables_swapped_spec by assumption.
  reflexivity.
Qed.

Lemma C3_pass_order_on_clean_input_witness :
  let segs := [Brace "PORT"; Plain ":"; Dollar "HOST"; Plain "/"; Brace "X"] in
  let variables := [("HOST", PStr "h1"); ("PORT", PStr "80")] in
  template_ok segs = true /\ names_ok variables = true
  /\ values_ok variables = true
  /\ replace_variables "{{PORT}}:${HOST}/{{X}}" variables
     = replace_variables_swapped "{{PORT}}:${HOST}/{{X}}" variables.
Proof.
  intros segs variables.
  split; [reflexivity|]. split; [reflexivity|]. split; [reflexivity|].
  exact (C3_pass_order_on_clean_input segs variables eq_refl eq_refl eq_refl).
Defined.

(** C3 as stated fails.  A value that holds a [{{B}}] placeholder is
    replaced when the [{{NAME}}] loop runs second and stays when it runs
    first; a value can spell a placeholder with octal escapes; an empty
    value can join a stray [{] to the text behind it. *)
Lemma C3_counterexample :
  (replace_variables "${A}" [("A", PStr "{{B}}"); ("B", PStr "x")] = Ok "x"
   /\ replace_variables_swapped "${A}" [("A", PStr "{{B}}"); ("B", PStr "x")]
      = Ok "{{B}}")
  /\ (replace_variables "{{A}}" [("A", PStr "\044\173B}"); ("B", PStr "x")]
      = Ok "${B}"
      /\ replace_variables_swapped
           "{{A}}" [("A", PStr "\044\173B}"); ("B", PStr "x")]
         = Ok "x")
  /\ (replace_variables "{${A}{B}}" [("A", PStr ""); ("B", PStr "x")] = Ok "x"
      /\ replace_variables_swapped
           "{${A}{B}}" [("A", PStr ""); ("B", PStr "x")]
         = Ok "{{B}}")
  /\ ~ (forall template variables,
           replace_variables template variables
           = replace_variables_swapped template variables).
Proof.
  repeat split; try reflexivity.
  intros H.
  specialize (H "${A}" [("A", PStr "{{B}}"); ("B", PStr "x")]).
  vm_compute in H. discriminate H.
Qed.

(* ----------------------------------------------------------------- *)
(** ** C4 *)

(** C4, as amended.  When the name of a placeholder and the names of the
    mapping hold none of [$], [{], [}], and the name is not a key of the
    mapping, the placeholder, in either syntax, is in the output as it
    stands in the template, between what [replace_variables] makes of the
    text before it and of the text behind it; the placeholder adds no
    error to those of the two texts. *)
Theorem C4_unknown_placeholder_verbatim
        (pre post name : string) (variables : dict pyval) :
  name_ok name = true ->
  names_ok variables = true ->
  dict_get name variables = None ->
  replace_variables (pre ++ dollar_placeholder name ++ post) variables
  = (before <- replace_variables pre variables ;;
     behind <- replace_variables post variables ;;
     Ok (before ++ dollar_placeholder name ++ behind))
  /\ replace_variables (pre ++ brace_placeholder name ++ post) variables
     = (before <- replace_variables pre variables ;;
        behind <- replace_variables post variables ;;
        Ok (before ++ brace_placeholder name ++ behind)).
Proof.
  intros Hname Hnames Hget.
  pose proof (names_ok_keys variables Hnames) as Hk.
  pose proof (dict_get_none_keys name variables Hget) as Hne.
  split; apply replace_variables_around.
  - now apply dollar_shape.
  - intros k Hin. split; [now apply Hk|]. split; intros y.
    + apply dollar_prefix_dollar; auto.
    + apply brace_prefix_dollar.
  - now apply brace_shape.
  - intros k Hin. split; [now apply Hk|]. split; intros y.
    + apply dollar_prefix_brace.
    + apply brace_prefix_brace; auto.
Qed.

Lemma C4_unknown_placeholder_verbatim_witness :
  let variables := [("A", PStr "${UNKNOWN}"); ("B", PStr "b\\c")] in
  name_ok "UNKNOWN" = true /\ names_ok variables = true
  /\ dict_get "UNKNOWN" variables = None
  /\ replace_variables "${A}-${UNKNOWN}-{{B}}" variables
     = Ok "${UNKNOWN}-${UNKNOWN}-b\c"
  /\ replace_variables "${A}-{{UNKNOWN}}-{{B}}" variables
     = Ok "${UNKNOWN}-{{UNKNOWN}}-b\c".
Proof.
  intros variables.
  split; [reflexivity|]. split; [reflexivity|]. split; [reflexivity|].
  exact (C4_unknown_placeholder_verbatim "${A}-" "-{{B}}" "UNKNOWN" variables
           eq_refl eq_refl eq_refl).
Defined.

(** C4 as stated fails when a column name holds placeholder characters:
    the name [{U] makes [${{U}] a placeholder of the mapping, and its
    replacement takes away the head of the placeholder [{{U}}] of the
    unknown name [U]. *)
Lemma C4_counterexample :
  dict_get "U" [("{U", PStr "x")] = None
  /\ replace_variables ("$" ++ brace_placeholder "U" ++ "") [("{U", PStr "x")]
     = Ok "x}"
  /\ replace_variables "$" [("{U", PStr "x")] = Ok "$"
  /\ replace_variables "" [("{U", PStr "x")] = Ok ""
  /\ ~ (forall pre post name variables,
           dict_get name variables = None ->
           replace_variables (pre ++ brace_placeholder name ++ post) variables
           = (before <- replace_variables pre variables ;;
              behind <- replace_variables post variables ;;
              Ok (before ++ brace_placeholder name ++ behind))).
Proof.
  repeat split; try reflexivity.
  intros H.
  specialize (H "$" "" "U" [("{U", PStr "x")] eq_refl).
  vm_compute in H. discriminate H.
Qed.

(* ----------------------------------------------------------------- *)
(** ** C5 *)

(** C5 fails on the code: the last message of [main] prints [len(rows)],
    the number of rows read, as the number of files generated.  With one
    row whose file name is empty the run writes no file and reports one;
    with a write that fails it writes one file and reports two.  The run
    returns normally in both cases. *)
Theorem C5_generated_count_is_row_count :
  (run (main world_skipped_row ["prog"; "t.txt"; "d.csv"])
   = ([Print "Reading template: t.txt"; Print "Reading CSV: d.csv";
       Print (Str.nl ++ "Processing 1 row(s)...");
       Print "Output filename column: 'filename'";
       Print "Variable columns: A";
       Print "";
       Print "Warning: Row 1 has empty filename, skipping...";
       Print (Str.nl ++ "Completed! Generated 1 file(s).")],
      Returned)
   /\ files_written
        (fst (run (main world_skipped_row ["prog"; "t.txt"; "d.csv"]))) = [])
  /\ (run (main world_failed_write ["prog"; "t.txt"; "d.csv"])
      = ([Print "Reading template: t.txt"; Print "Reading CSV: d.csv";
          Print (Str.nl ++ "Processing 2 row(s)...");
          Print "Output filename column: 'filename'";
          Print "Variable columns: A";
          Print "";
          Print "Error writing to 'one.txt': Permission denied";
          Write "two.txt" "v=y";
          Print "Created: two.txt";
          Print (Str.nl ++ "Completed! Generated 2 file(s).")],
         Returned)
      /\ files_written
           (fst (run (main world_failed_write ["prog"; "t.txt"; "d.csv"])))
         = [("two.txt", "v=y")]).
Proof. repeat split; reflexivity. Qed.

(* ----------------------------------------------------------------- *)
(** ** C6 *)

(** C6.  The name gets [.txt] appended when it does not end in [.txt] and
    stays as it is when it does; the result always ends in [.txt], and
    normalizing twice is normalizing once. *)
Theorem C6_extension_normalization (output_filename : string) :
  add_txt_extension output_filename
  = (if Str.endswith output_filename ".txt" then output_filename
     else output_filename ++ ".txt")
  /\ Str.endswith (add_txt_extension output_filename) ".txt" = true
  /\ add_txt_extension (add_txt_extension output_filename)
     = add_txt_extension output_filename.
Proof.
  unfold add_txt_extension.
  destruct (Str.endswith output_filename ".txt") eqn:E; cbn [negb].
  - rewrite E. cbn [negb]. auto.
  - rewrite endswith_append. cbn [negb]. auto.
Qed.

(* ----------------------------------------------------------------- *)
(** ** C7 *)

(** [strip] of a string of white space is the empty string *)
Lemma strip_whitespace_only (s : string) :
  Re.all_chars Str.isspace s = true -> Str.strip s = "".
Proof.
  intros H. unfold strip, rstrip.
  assert (Hl : lstrip s = "").
  { induction s as [|c s IH]; [reflexivity|].
    cbn [all_chars] in H. apply andb_true_iff in H as [Hc Hs].
    cbn [lstrip]. rewrite Hc. now apply IH. }
  now rewrite Hl.
Qed.

(** C7.  A row whose file name is empty after [strip] adds one event to
    the run, the warning with the row's number, and no file; the loop goes
    on with the rows behind it. *)
Theorem C7_empty_filename_skipped
        (w : world) (template filename_column : string)
        (variable_columns : list string) (idx : nat)
        (row : dict pyval) (rest : list (dict pyval))
        (value : string) (tr : list event) :
  dict_get filename_column row = Some (PStr value) ->
  Str.strip value = "" ->
  process_rows w template filename_column variable_columns idx (row :: rest) tr
  = process_rows w template filename_column variable_columns (S idx) rest
      (tr ++ [Print ("Warning: Row " ++ Str.of_nat idx
                     ++ " has empty filename, skipping...")])%list.
Proof.
  intros Hget Hstrip. cbn [process_rows].
  unfold mbind at 1. unfold process_row, mbind, lift, filename_of_row.
  rewrite Hget, Hstrip. reflexivity.
Qed.

Lemma C7_empty_filename_skipped_witness :
  dict_get "filename" [("filename", PStr "   "); ("A", PStr "y")]
  = Some (PStr "   ")
  /\ Str.strip "   " = ""
  /\ process_rows world_blank_name "v=${A}" "filename" ["A"] 2
       [[("filename", PStr "   "); ("A", PStr "y")];
        [("filename", PStr "three"); ("A", PStr "z")]] []
     = ([Print "Warning: Row 2 has empty filename, skipping...";
         Write "three.txt" "v=z"; Print "Created: three.txt"], Next tt).
Proof.
  split; [reflexivity|]. split; [reflexivity|].
  refine (eq_trans
            (C7_empty_filename_skipped world_blank_name "v=${A}" "filename"
               ["A"] 2 [("filename", PStr "   "); ("A", PStr "y")]
               [[("filename", PStr "three"); ("A", PStr "z")]] "   " []
               eq_refl eq_refl) _).
  reflexivity.
Defined.

(* ----------------------------------------------------------------- *)
(** ** C8 *)

(** C8.  When the table read has no header ([None] or an empty first
    line) or no data row, the run prints the error, ends with
    [sys.exit(1)] and writes no file. *)
Theorem C8_empty_input_is_fatal
        (w : world) (prog template_path csv_path : string)
        (lines : list (list string)) :
  csv_file w csv_path = ReadOk lines ->
  no_headers (DictReader_fieldnames lines) = true
  \/ DictReader_rows lines = [] ->
  exit_status (snd (run (main w [prog; template_path; csv_path]))) = 1
  /\ files_written (fst (run (main w [prog; template_path; csv_path]))) = []
  /\ forall text, template_file w template_path = ReadOk text ->
       run (main w [prog; template_path; csv_path])
       = ([Print ("Reading template: " ++ template_path);
           Print ("Reading CSV: " ++ csv_path);
           Print "Error: CSV file is empty or has no data rows."],
          SysExit 1).
Proof.
  intros Hcsv Hempty.
  assert (Hcond : no_headers (DictReader_fieldnames lines)
                  || no_rows (DictReader_rows lines) = true).
  { destruct Hempty as [H|H]; [now rewrite H|].
    rewrite H. apply orb_true_r. }
  unfold run, main, mbind, print, read_template, read_csv, ret, sys_exit.
  destruct (template_file w template_path) as [text| |msg]; cbn.
  - rewrite Hcsv. cbn. rewrite Hcond. cbn.
    split; [reflexivity|]. split; [reflexivity|]. intros text' _. reflexivity.
  - split; [reflexivity|]. split; [reflexivity|]. intros text' H. discriminate H.
  - split; [reflexivity|]. split; [reflexivity|]. intros text' H. discriminate H.
Qed.

Lemma C8_empty_input_is_fatal_witness :
  csv_file world_header_only "d.csv" = ReadOk [["filename"; "A"]; []]
  /\ DictReader_rows [["filename"; "A"]; []] = []
  /\ exit_status (snd (run (main world_header_only ["prog"; "t.txt"; "d.csv"])))
     = 1
  /\ files_written (fst (run (main world_header_only ["prog"; "t.txt"; "d.csv"])))
     = [].
Proof.
  split; [reflexivity|]. split; [reflexivity|].
  destruct (C8_empty_input_is_fatal world_header_only "prog" "t.txt" "d.csv"
              [["filename"; "A"]; []] eq_refl (or_intror eq_refl))
    as (Hexit & Hfiles & _).
  split; [exact Hexit | exact Hfiles].
Defined.

(* ----------------------------------------------------------------- *)
(** ** C9 *)

(** C9, as amended.  The keys of the mapping built for a row are the names
    of the columns behind the first one, each once, with the row's values.
    When the name of the first column is not the name of a later column as
    well, it is not a key of the mapping; and when, besides, the column
    names hold none of [$], [{], [}], a placeholder of the template that
    names the first column is never substituted: in either syntax it
    stands in the output as it stood in the template, between what
    [replace_variables] makes of the text before it and of the text behind
    it. *)
Theorem C9_first_column_never_substituted
        (headers : list string) (row variables : dict pyval) :
  build_variables row (tl headers) [] = Ok variables ->
  (forall col, In col (dict_keys variables) <-> In col (tl headers))
  /\ NoDup (dict_keys variables)
  /\ (forall col, In col (tl headers) ->
                  dict_get col variables = dict_get col row)
  /\ (~ In (hd "" headers) (tl headers) ->
      ~ In (hd "" headers) (dict_keys variables)
      /\ dict_get (hd "" headers) variables = None
      /\ (forallb name_ok headers = true ->
          forall before behind,
            replace_variables
              (before ++ dollar_placeholder (hd "" headers) ++ behind) variables
            = (b <- replace_variables before variables ;;
               c <- replace_variables behind variables ;;
               Ok (b ++ dollar_placeholder (hd "" headers) ++ c))
            /\ replace_variables
                 (before ++ brace_placeholder (hd "" headers) ++ behind)
                 variables
               = (b <- replace_variables before variables ;;
                  c <- replace_variables behind variables ;;
                  Ok (b ++ brace_placeholder (hd "" headers) ++ c)))).
Proof.
  intros Hb.
  assert (Hkeys : forall col, In col (dict_keys variables) <-> In col (tl headers)).
  { intros col. rewrite (build_variables_keys _ _ _ _ Hb col).
    cbn [dict_keys map In]. intuition. }
  split; [exact Hkeys|]. split.
  { apply (build_variables_NoDup _ _ _ _ Hb). constructor. }
  split.
  { intros col Hin. rewrite (build_variables_get _ _ _ _ Hb col).
    apply existsb_eqb_In in Hin. now rewrite Hin. }
  intros Hfirst.
  assert (Hget : dict_get (hd "" headers) variables = None).
  { rewrite (build_variables_get _ _ _ _ Hb).
    destruct (existsb (String.eqb (hd "" headers)) (tl headers)) eqn:E;
      [|reflexivity].
    apply existsb_eqb_In in E. contradiction. }
  split; [now rewrite Hkeys|]. split; [exact Hget|].
  intros Hclean before behind.
  assert (Hname : name_ok (hd "" headers) = true
                  /\ forallb name_ok (tl headers) = true).
  { destruct headers as [|h t]; [now split|].
    cbn [forallb] in Hclean. now apply andb_true_iff in Hclean. }
  destruct Hname as [Hname Htl].
  assert (Hnames : names_ok variables = true).
  { apply (build_variables_forallb (fun k _ => name_ok k) row (tl headers))
      with (acc := []); [|exact Hb|reflexivity].
    intros c v Hin _. rewrite forallb_forall in Htl. now apply Htl. }
  pose proof (names_ok_keys variables Hnames) as Hk.
  pose proof (dict_get_none_keys _ variables Hget) as Hne.
  split; apply replace_variables_around.
  - now apply dollar_shape.
  - intros k Hin. split; [now apply Hk|]. split; intros y.
    + apply dollar_prefix_dollar; auto.
    + apply brace_prefix_dollar.
  - now apply brace_shape.
  - intros k Hin. split; [now apply Hk|]. split; intros y.
    + apply dollar_prefix_brace.
    + apply brace_prefix_brace; auto.
Qed.

Lemma C9_first_column_never_substituted_witness :
  let headers := ["filename"; "SERVER_IP"; "PORT"] in
  let row := DictReader_row headers ["config1"; "192.168.1.10"; "8080"] in
  let variables := [("SERVER_IP", PStr "192.168.1.10"); ("PORT", PStr "8080")] in
  build_variables row (tl headers) [] = Ok variables
  /\ ~ In (hd "" headers) (tl headers)
  /\ forallb name_ok headers = true
  /\ dict_get "filename" variables = None
  /\ replace_variables "${PORT} ${filename} {{PORT}}" variables
     = Ok "8080 ${filename} 8080"
  /\ replace_variables "${PORT} {{filename}} {{PORT}}" variables
     = Ok "8080 {{filename}} 8080".
Proof.
  intros headers row variables.
  assert (Hfirst : ~ In (hd "" headers) (tl headers)).
  { intros [H|[H|[]]]; discriminate H. }
  split; [reflexivity|]. split; [exact Hfirst|]. split; [reflexivity|].
  destruct (C9_first_column_never_substituted headers row variables eq_refl)
    as (_ & _ & _ & Hrest).
  destruct (Hrest Hfirst) as (_ & Hget & Hsub).
  split; [exact Hget|].
  exact (Hsub eq_refl "${PORT} " " {{PORT}}").
Defined.

(** C9 as stated fails.  For a header that names two columns alike, [f,f],
    the row binds [f] to the field of the second column, the file name is
    read from it, and [f] is a key of the mapping, so that [${f}] is
    replaced.  And a first column [A] beside a column named [A}] is no key
    of the mapping, yet the scan for [${A}}] takes the placeholder [${A}]
    of the template away. *)
Lemma C9_counterexample :
  (let headers := ["f"; "f"] in
   let row := DictReader_row headers ["out"; "v"] in
   row = [("f", PStr "v")]
   /\ filename_of_row row (hd "" headers) = Ok "v"
   /\ build_variables row (tl headers) [] = Ok [("f", PStr "v")]
   /\ In (hd "" headers) (dict_keys [("f", PStr "v")])
   /\ replace_variables "name=${f}" [("f", PStr "v")] = Ok "name=v")
  /\ (let headers := ["A"; "A}"] in
      let row := DictReader_row headers ["out"; "v"] in
      build_variables row (tl headers) [] = Ok [("A}", PStr "v")]
      /\ ~ In (hd "" headers) (tl headers)
      /\ replace_variables ("name=" ++ dollar_placeholder "A" ++ "}")
                           [("A}", PStr "v")]
         = Ok "name=v")
  /\ ~ (forall headers row variables,
           build_variables row (tl headers) [] = Ok variables ->
           ~ In (hd "" headers) (dict_keys variables)).
Proof.
  cbn zeta. split; [|split].
  - split; [reflexivity|]. split; [reflexivity|].
    split; [reflexivity|]. split; [now left | reflexivity].
  - split; [reflexivity|]. split; [|reflexivity].
    intros [H|[]]. discriminate H.
  - intros H.
    apply (H ["f"; "f"] (DictReader_row ["f"; "f"] ["out"; "v"])
             [("f", PStr "v")] eq_refl).
    now left.
Qed.

(* ----------------------------------------------------------------- *)
(** ** C10 *)


Lemma In_tl {A} (x : A) (l : list A) : In x (tl l) -> In x l.
Proof. destruct l as [|h l]; [intros [] | now right]. Qed.



(* ================================================================= *)
(** * Further properties of the script *)

(* ----------------------------------------------------------------- *)
(** ** The loop of [main] *)

Lemma files_written_app (tr ext : list event) :
  files_written (tr ++ ext)%list
  = (files_written tr ++ files_written ext)%list.
Proof.
  induction tr as [|[text | path content] tr IH]; cbn [app files_written];
    [reflexivity | exact IH | now rewrite IH].
Qed.

(** the body of the loop is [row_output] followed by the write *)
Lemma process_row_eq (w : world) (template filename_column : string)
      (variable_columns : list string) (idx : nat) (row : dict pyval)
      (tr : list event) :
  process_row w template filename_column variable_columns idx row tr
  = match row_output template filename_column variable_columns row with
    | Raise e => (tr, Stop (Uncaught e))
    | Ok None =>
        ((tr ++ [Print ("Warning: Row " ++ Str.of_nat idx
                        ++ " has empty filename, skipping...")])%list, Next tt)
    | Ok (Some (path, content)) => write_output w path content tr
    end.
Proof.
  unfold process_row, row_output, mbind, lift.
  destruct (filename_of_row row filename_column) as [name|e]; cbn [bind];
    [|reflexivity].
  destruct (name =? "")%string; [reflexivity|].
  destruct (build_variables row variable_columns []) as [vars|e]; cbn [bind];
    [|reflexivity].
  destruct (replace_variables template vars) as [content|e]; reflexivity.
Qed.

Lemma process_rows_cons (w : world) (template filename_column : string)
      (variable_columns : list string) (idx : nat) (row : dict pyval)
      (rest : list (dict pyval)) (tr : list event) :
  process_rows w template filename_column variable_columns idx (row :: rest) tr
  = match process_row w template filename_column variable_columns idx row tr with
    | (tr', Next _) =>
        process_rows w template filename_column variable_columns (S idx) rest tr'
    | (tr', Stop o) => (tr', Stop o)
    end.
Proof. reflexivity. Qed.

(** a write goes on to the next statement, with the file or with the error
    message added to the events *)
Lemma write_output_cases (w : world) (path content : string) (tr : list event) :
  exists ext,
    write_output w path content tr = ((tr ++ ext)%list, Next tt)
    /\ (files_written ext = [] \/ files_written ext = [(path, content)]).
Proof.
  unfold write_output. destruct (write_file w tr path content) as [e|].
  - eexists. split; [reflexivity | now left].
  - eexists. split; [reflexivity | now right].
Qed.

(** The loop only adds events; every file it writes is the output of one of
    its rows; it writes no more files than it has rows. *)
Lemma process_rows_files (w : world) (template filename_column : string)
      (variable_columns : list string) (rows : list (dict pyval)) :
  forall idx tr tr' st,
    process_rows w template filename_column variable_columns idx rows tr
    = (tr', st) ->
    exists ext,
      tr' = (tr ++ ext)%list
      /\ (forall file, In file (files_written ext) ->
            exists row, In row rows
              /\ row_output template filename_column variable_columns row
                 = Ok (Some file))
      /\ List.length (files_written ext) <= List.length rows.
Proof.
  induction rows as [|row rest IH]; intros idx tr tr' st H.
  - cbn in H. injection H as <- _. exists []. rewrite app_nil_r.
    split; [reflexivity|]. split; [intros file []|cbn; lia].
  - rewrite process_rows_cons, process_row_eq in H.
    destruct (row_output template filename_column variable_columns row)
      as [[[path content]|]|e] eqn:Hrow.
    + destruct (write_output_cases w path content tr) as (ext1 & Hw & Hfiles).
      rewrite Hw in H. destruct (IH _ _ _ _ H) as (ext2 & -> & Hin & Hlen).
      exists (ext1 ++ ext2)%list. rewrite app_assoc.
      split; [reflexivity|]. rewrite files_written_app. split.
      * intros file Hfile. apply in_app_or in Hfile as [Hfile|Hfile].
        -- destruct Hfiles as [Hnil|Hone]; [rewrite Hnil in Hfile; destruct Hfile|].
           rewrite Hone in Hfile. destruct Hfile as [<-|[]].
           exists row. split; [now left | exact Hrow].
        -- destruct (Hin file Hfile) as (r & Hr & Hout).
           exists r. split; [now right | exact Hout].
      * rewrite length_app. cbn [List.length].
        destruct Hfiles as [-> | ->]; cbn [List.length]; lia.
    + destruct (IH _ _ _ _ H) as (ext2 & -> & Hin & Hlen).
      eexists (_ :: ext2). rewrite <- app_assoc. cbn [app].
      split; [reflexivity|]. cbn [files_written]. split.
      * intros file Hfile. destruct (Hin file Hfile) as (r & Hr & Hout).
        exists r. split; [now right | exact Hout].
      * cbn [List.length]. lia.
    + injection H as <- _. exists []. rewrite app_nil_r.
      split; [reflexivity|]. split; [intros file []|cbn; lia].
Qed.

(* ----------------------------------------------------------------- *)
(** ** The ways through [main] *)

(** the messages [main] prints before the loop *)
Lemma main_with_rows (w : world) (prog template_path csv_path template : string)
      (lines : list (list string)) (filename_column : string)
      (variable_columns : list string) :
  template_file w template_path = ReadOk template ->
  csv_file w csv_path = ReadOk lines ->
  DictReader_fieldnames lines = Some (filename_column :: variable_columns) ->
  DictReader_rows lines <> [] ->
  run (main w [prog; template_path; csv_path])
  = match process_rows w template filename_column variable_columns 1
            (DictReader_rows lines)
            [Print ("Reading template: " ++ template_path);
             Print ("Reading CSV: " ++ csv_path);
             Print (Str.nl ++ "Processing "
                    ++ Str.of_nat (List.length (DictReader_rows lines))
                    ++ " row(s)...");
             Print ("Output filename column: '" ++ filename_column ++ "'");
             Print ("Variable columns: " ++ Str.join ", " variable_columns);
             Print ""] with
    | (tr, Next _) =>
        ((tr ++ [Print (completed_message (DictReader_rows lines))])%list,
         Returned)
    | (tr, Stop o) => (tr, o)
    end.
Proof.
  intros Ht Hc Hf Hrows.
  unfold run, main, mbind, print, read_template, read_csv, ret, sys_exit.
  rewrite Ht. cbn [app]. rewrite Hc. rewrite Hf. cbn [no_headers orb].
  destruct (DictReader_rows lines) as [|row rows] eqn:E; [congruence|].
  cbn [no_rows app hd tl].
  destruct (process_rows w template filename_column variable_columns 1
              (row :: rows) _) as [tr [u|o]]; reflexivity.
Qed.

(** every way through [main] that writes a file goes through the loop *)
Lemma main_cases (w : world) (argv : list string) :
  files_written (fst (run (main w argv))) = []
  \/ exists prog template_path csv_path template lines filename_column
            variable_columns tr0 tr' st,
      argv = [prog; template_path; csv_path]
      /\ template_file w template_path = ReadOk template
      /\ csv_file w csv_path = ReadOk lines
      /\ DictReader_fieldnames lines = Some (filename_column :: variable_columns)
      /\ files_written tr0 = []
      /\ process_rows w template filename_column variable_columns 1
           (DictReader_rows lines) tr0 = (tr', st)
      /\ files_written (fst (run (main w argv))) = files_written tr'.
Proof.
  destruct argv as [|prog [|template_path [|csv_path [|extra argv]]]];
    try (left; reflexivity).
  destruct (template_file w template_path) as [template| |msg] eqn:Ht.
  2,3: left; unfold run, main, mbind, print, read_template, sys_exit;
       rewrite Ht; reflexivity.
  destruct (csv_file w csv_path) as [lines| |msg] eqn:Hc.
  2,3: left; unfold run, main, mbind, print, read_template, read_csv, ret,
         sys_exit; rewrite Ht; cbn [app]; rewrite Hc; reflexivity.
  destruct (DictReader_fieldnames lines) as [[|filename_column variable_columns]|]
    eqn:Hf.
  1,3: left; unfold run, main, mbind, print, read_template, read_csv, ret,
         sys_exit; rewrite Ht; cbn [app]; rewrite Hc, Hf; reflexivity.
  assert (Hcase : DictReader_rows lines = [] \/ DictReader_rows lines <> [])
    by (destruct (DictReader_rows lines); [now left | right; discriminate]).
  destruct Hcase as [Hrows|Hne].
  { left. unfold run, main, mbind, print, read_template, read_csv, ret, sys_exit.
    rewrite Ht. cbn [app]. rewrite Hc, Hf, Hrows. reflexivity. }
  right.
  rewrite (main_with_rows w prog template_path csv_path template lines
             filename_column variable_columns Ht Hc Hf Hne).
  match goal with
  | |- context [process_rows ?a ?b ?c ?d ?e ?f ?g] =>
      destruct (process_rows a b c d e f g) as [tr' st] eqn:Hp;
      exists prog, template_path, csv_path, template, lines, filename_column,
             variable_columns, g, tr', st
  end.
  repeat (split; [reflexivity || assumption|]).
  destruct st as [u|o]; cbn [fst]; [|reflexivity].
  rewrite files_written_app. cbn [files_written]. apply app_nil_r.
Qed.

(** what a row that asks for a file is made of *)
Lemma row_output_some (template filename_column : string)
      (variable_columns : list string) (row : dict pyval)
      (path content : string) :
  row_output template filename_column variable_columns row
  = Ok (Some (path, content)) ->
  exists value variables,
    dict_get filename_column row = Some (PStr value)
    /\ Str.strip value <> ""
    /\ path = add_txt_extension (Str.strip value)
    /\ build_variables row variable_columns [] = Ok variables
    /\ replace_variables template variables = Ok content.
Proof.
  unfold row_output, filename_of_row. intros H.
  destruct (dict_get filename_column row) as [[value|]|] eqn:Hget;
    try discriminate H.
  cbn [bind] in H.
  destruct (String.eqb_spec (Str.strip value) "") as [E|E]; [discriminate H|].
  destruct (build_variables row variable_columns []) as [variables|e] eqn:Hb;
    [|discriminate H].
  cbn [bind] in H.
  destruct (replace_variables template variables) as [out|e] eqn:Hr;
    [|discriminate H].
  cbn [bind] in H. injection H as <- <-.
  exists value, variables.
  split; [reflexivity|]. split; [exact E|]. split; [reflexivity|].
  split; [reflexivity | exact Hr].
Qed.

(* ----------------------------------------------------------------- *)
(** ** Errors of [replace_variables] *)

Lemma replace_pass_first_error (ph : string -> string) (variables : dict pyval) :
  forall s,
    match first_error variables with
    | Some e => replace_pass ph variables s = Raise e
    | None => exists out, replace_pass ph variables s = Ok out
    end.
Proof.
  induction variables as [|[k v] rest IH]; intros s; cbn [first_error replace_pass].
  - now exists s.
  - unfold re_sub. destruct (parse_template (py_str v)) as [ps|e]; cbn [bind].
    + apply IH.
    + reflexivity.
Qed.

Lemma replace_variables_first_error (template : string) (variables : dict pyval) :
  match first_error variables with
  | Some e => replace_variables template variables = Raise e
  | None => exists out, replace_variables template variables = Ok out
  end.
Proof.
  unfold replace_variables.
  pose proof (replace_pass_first_error dollar_placeholder variables template) as Hd.
  destruct (first_error variables) as [e|] eqn:E.
  - now rewrite Hd.
  - destruct Hd as (out & ->). cbn [bind].
    pose proof (replace_pass_first_error brace_placeholder variables out) as Hb.
    rewrite E in Hb. destruct Hb as (out' & ->). now exists out'.
Qed.

(* ----------------------------------------------------------------- *)
(** ** X1: a wrong number of arguments *)

(** X1.  With an argument list that does not have three entries [main]
    prints the fifteen lines of the usage text and ends with
    [sys.exit(1)]; it reads no file and writes none, so the run is the same
    in every world. *)
Theorem X1_wrong_argument_count (w : world) (argv : list string) :
  List.length argv <> 3 ->
  run (main w argv) = run usage
  /\ exit_status (snd (run (main w argv))) = 1
  /\ files_written (fst (run (main w argv))) = []
  /\ List.length (fst (run (main w argv))) = 15.
Proof.
  intros Hlen.
  assert (H : main w argv = usage).
  { destruct argv as [|a [|b [|c [|d l]]]]; try reflexivity.
    cbn in Hlen. congruence. }
  rewrite H. repeat split.
Qed.

Lemma X1_wrong_argument_count_witness :
  List.length ["prog"; "template.txt"] <> 3
  /\ exit_status (snd (run (main world_blank_name ["prog"; "template.txt"]))) = 1
  /\ files_written (fst (run (main world_blank_name ["prog"; "template.txt"])))
     = [].
Proof.
  assert (Hlen : List.length ["prog"; "template.txt"] <> 3) by discriminate.
  split; [exact Hlen|].
  destruct (X1_wrong_argument_count world_blank_name ["prog"; "template.txt"]
              Hlen) as (_ & Hexit & Hfiles & _).
  split; [exact Hexit | exact Hfiles].
Defined.

(* ----------------------------------------------------------------- *)
(** ** X2, X3: input files that cannot be read *)

(** X2.  When the template cannot be read, [main] prints the line that
    announces the read and the error message of [read_template], and ends
    with [sys.exit(1)]: the CSV file is not announced, nothing is
    written. *)
Theorem X2_unreadable_template
        (w : world) (prog template_path csv_path : string) :
  (forall text, template_file w template_path <> ReadOk text) ->
  run (main w [prog; template_path; csv_path])
  = ([Print ("Reading template: " ++ template_path);
      Print (match template_file w template_path with
             | ReadNotFound =>
                 "Error: Template file '" ++ template_path ++ "' not found."
             | ReadError e => "Error reading template file: " ++ e
             | ReadOk _ => ""
             end)],
     SysExit 1).
Proof.
  intros Hbad.
  unfold run, main, mbind, print, read_template, sys_exit.
  destruct (template_file w template_path) as [text| |e] eqn:Ht;
    [|reflexivity|reflexivity].
  exfalso. now apply (Hbad text).
Qed.

Lemma X2_unreadable_template_witness :
  let w := {| template_file := fun _ => ReadNotFound;
              csv_file := fun _ => ReadOk [["filename"; "A"]; ["one"; "x"]];
              write_file := fun _ _ _ => None |} in
  (forall text, template_file w "t.txt" <> ReadOk text)
  /\ run (main w ["prog"; "t.txt"; "d.csv"])
     = ([Print "Reading template: t.txt";
         Print "Error: Template file 't.txt' not found."], SysExit 1).
Proof.
  intros w.
  assert (Hbad : forall text, template_file w "t.txt" <> ReadOk text)
    by (intros text; discriminate).
  split; [exact Hbad|].
  exact (X2_unreadable_template w "prog" "t.txt" "d.csv" Hbad).
Defined.

(** X3.  When the template is read and the CSV file cannot be read, [main]
    prints the two lines that announce the reads and the error message of
    [read_csv], and ends with [sys.exit(1)]; nothing is written. *)
Theorem X3_unreadable_csv
        (w : world) (prog template_path csv_path template : string) :
  template_file w template_path = ReadOk template ->
  (forall lines, csv_file w csv_path <> ReadOk lines) ->
  run (main w [prog; template_path; csv_path])
  = ([Print ("Reading template: " ++ template_path);
      Print ("Reading CSV: " ++ csv_path);
      Print (match csv_file w csv_path with
             | ReadNotFound => "Error: CSV file '" ++ csv_path ++ "' not found."
             | ReadError e => "Error reading CSV file: " ++ e
             | ReadOk _ => ""
             end)],
     SysExit 1).
Proof.
  intros Ht Hbad.
  unfold run, main, mbind, print, read_template, read_csv, ret, sys_exit.
  rewrite Ht. cbn [app].
  destruct (csv_file w csv_path) as [lines| |e] eqn:Hc;
    [|reflexivity|reflexivity].
  exfalso. now apply (Hbad lines).
Qed.

Lemma X3_unreadable_csv_witness :
  let w := {| template_file := fun _ => ReadOk "v=${A}";
              csv_file := fun _ => ReadError "line contains NUL";
              write_file := fun _ _ _ => None |} in
  template_file w "t.txt" = ReadOk "v=${A}"
  /\ (forall lines, csv_file w "d.csv" <> ReadOk lines)
  /\ run (main w ["prog"; "t.txt"; "d.csv"])
     = ([Print "Reading template: t.txt"; Print "Reading CSV: d.csv";
         Print "Error reading CSV file: line contains NUL"], SysExit 1).
Proof.
  intros w.
  assert (Hbad : forall lines, csv_file w "d.csv" <> ReadOk lines)
    by (intros lines; discriminate).
  split; [reflexivity|]. split; [exact Hbad|].
  exact (X3_unreadable_csv w "prog" "t.txt" "d.csv" "v=${A}" eq_refl Hbad).
Defined.

(* ----------------------------------------------------------------- *)
(** ** X4: a write that fails *)

(** X4.  When the write for a row fails, the row adds one event to the run,
    the error message with the path and the text of the exception, and no
    file; the loop goes on with the rows behind it. *)
Theorem X4_failed_write_is_not_fatal
        (w : world) (template filename_column : string)
        (variable_columns : list string) (idx : nat)
        (row : dict pyval) (rest : list (dict pyval))
        (path content e : string) (tr : list event) :
  row_output template filename_column variable_columns row
  = Ok (Some (path, content)) ->
  write_file w tr path content = Some e ->
  process_rows w template filename_column variable_columns idx (row :: rest) tr
  = process_rows w template filename_column variable_columns (S idx) rest
      (tr ++ [Print ("Error writing to '" ++ path ++ "': " ++ e)])%list.
Proof.
  intros Hrow Hw.
  rewrite process_rows_cons, process_row_eq, Hrow.
  unfold write_output. rewrite Hw. reflexivity.
Qed.

Lemma X4_failed_write_is_not_fatal_witness :
  row_output "v=${A}" "filename" ["A"] [("filename", PStr "one"); ("A", PStr "x")]
  = Ok (Some ("one.txt", "v=x"))
  /\ write_file world_failed_write [] "one.txt" "v=x" = Some "Permission denied"
  /\ process_rows world_failed_write "v=${A}" "filename" ["A"] 1
       [[("filename", PStr "one"); ("A", PStr "x")];
        [("filename", PStr "two.txt"); ("A", PStr "y")]] []
     = ([Print "Error writing to 'one.txt': Permission denied";
         Write "two.txt" "v=y"; Print "Created: two.txt"], Next tt).
Proof.
  split; [reflexivity|]. split; [reflexivity|].
  refine (eq_trans
            (X4_failed_write_is_not_fatal world_failed_write "v=${A}" "filename"
               ["A"] 1 [("filename", PStr "one"); ("A", PStr "x")]
               [[("filename", PStr "two.txt"); ("A", PStr "y")]]
               "one.txt" "v=x" "Permission denied" [] eq_refl eq_refl) _).
  reflexivity.
Defined.

(* ----------------------------------------------------------------- *)
(** ** X5, X6, X7: the files a run writes *)

(** X5.  Every file a run of [main] writes comes from a data row of the
    table: its path is the stripped, non-empty value of the row's first
    column with [.txt] added when missing, so it ends in [.txt]; its
    content is what [replace_variables] makes of the template with the
    mapping built from the row's other columns. *)
Theorem X5_written_files_come_from_rows
        (w : world) (argv : list string) (path content : string) :
  In (path, content) (files_written (fst (run (main w argv)))) ->
  Str.endswith path ".txt" = true
  /\ exists prog template_path csv_path template lines filename_column
            variable_columns row value variables,
      argv = [prog; template_path; csv_path]
      /\ template_file w template_path = ReadOk template
      /\ csv_file w csv_path = ReadOk lines
      /\ DictReader_fieldnames lines = Some (filename_column :: variable_columns)
      /\ In row (DictReader_rows lines)
      /\ dict_get filename_column row = Some (PStr value)
      /\ Str.strip value <> ""
      /\ path = add_txt_extension (Str.strip value)
      /\ build_variables row variable_columns [] = Ok variables
      /\ replace_variables template variables = Ok content.
Proof.
  intros Hin.
  destruct (main_cases w argv)
    as [Hnil | (prog & tp & cp & template & lines & f & vs & tr0 & tr' & st
                & -> & Ht & Hc & Hf & Htr0 & Hp & Hfiles)].
  { rewrite Hnil in Hin. destruct Hin. }
  rewrite Hfiles in Hin.
  destruct (process_rows_files _ _ _ _ _ _ _ _ _ Hp) as (ext & -> & Hrows & _).
  rewrite files_written_app, Htr0 in Hin. cbn [app] in Hin.
  destruct (Hrows _ Hin) as (row & Hrow & Hout).
  destruct (row_output_some _ _ _ _ _ _ Hout)
    as (value & variables & Hget & Hne & -> & Hb & Hr).
  split.
  - unfold add_txt_extension.
    destruct (Str.endswith (Str.strip value) ".txt") eqn:E; cbn [negb];
      [exact E | apply endswith_append].
  - exists prog, tp, cp, template, lines, f, vs, row, value, variables.
    repeat (split; [reflexivity || assumption|]). exact Hr.
Qed.

Lemma X5_written_files_come_from_rows_witness :
  In ("three.txt", "v=z")
     (files_written (fst (run (main world_blank_name ["prog"; "t"; "d"]))))
  /\ Str.endswith "three.txt" ".txt" = true.
Proof.
  assert (Hin : In ("three.txt", "v=z")
                   (files_written
                      (fst (run (main world_blank_name ["prog"; "t"; "d"])))))
    by (right; left; reflexivity).
  split; [exact Hin|].
  exact (proj1 (X5_written_files_come_from_rows world_blank_name
                  ["prog"; "t"; "d"] "three.txt" "v=z" Hin)).
Defined.

(** X6.  A run writes at most one file for each data row of the table: the
    number of files written never exceeds the number of rows, the number
    the last message of [main] reports. *)
Theorem X6_files_written_at_most_rows
        (w : world) (prog template_path csv_path : string)
        (lines : list (list string)) :
  csv_file w csv_path = ReadOk lines ->
  List.length (files_written (fst (run (main w [prog; template_path; csv_path]))))
  <= List.length (DictReader_rows lines).
Proof.
  intros Hcsv.
  destruct (main_cases w [prog; template_path; csv_path])
    as [Hnil | (prog' & tp & cp & template & lines' & f & vs & tr0 & tr' & st
                & Hargv & Ht & Hc & Hf & Htr0 & Hp & Hfiles)].
  { rewrite Hnil. cbn [List.length]. lia. }
  injection Hargv as _ <- <-.
  rewrite Hcsv in Hc. injection Hc as <-.
  rewrite Hfiles.
  destruct (process_rows_files _ _ _ _ _ _ _ _ _ Hp) as (ext & -> & _ & Hlen).
  rewrite files_written_app, Htr0. exact Hlen.
Qed.

Lemma X6_files_written_at_most_rows_witness :
  csv_file world_failed_write "d"
  = ReadOk [["filename"; "A"]; ["one"; "x"]; ["two.txt"; "y"]]
  /\ List.length
       (files_written (fst (run (main world_failed_write ["prog"; "t"; "d"]))))
     <= 2.
Proof.
  split; [reflexivity|].
  exact (X6_files_written_at_most_rows world_failed_write "prog" "t" "d"
           [["filename"; "A"]; ["one"; "x"]; ["two.txt"; "y"]] eq_refl).
Defined.

(** when every write succeeds and no row raises, the loop writes the
    planned files and goes through *)
Lemma process_rows_all_written (w : world) (template filename_column : string)
      (variable_columns : list string) (rows : list (dict pyval)) :
  (forall tr path content, write_file w tr path content = None) ->
  rows_computable template filename_column variable_columns rows = true ->
  forall idx tr, exists ext,
    process_rows w template filename_column variable_columns idx rows tr
    = ((tr ++ ext)%list, Next tt)
    /\ files_written ext
       = planned_files template filename_column variable_columns rows.
Proof.
  intros Hw. induction rows as [|row rest IH]; intros Hok idx tr.
  - exists []. rewrite app_nil_r. now split.
  - cbn [rows_computable forallb] in Hok. apply andb_true_iff in Hok as [Hrow Hrest].
    rewrite process_rows_cons, process_row_eq. cbn [planned_files].
    destruct (row_output template filename_column variable_columns row)
      as [[[path content]|]|e]; [| |discriminate Hrow].
    + unfold write_output. rewrite Hw.
      destruct (IH Hrest (S idx)
                   (tr ++ [Write path content; Print ("Created: " ++ path)])%list)
        as (ext & -> & Hfiles).
      eexists (_ :: _ :: ext). rewrite <- app_assoc. cbn [app].
      split; [reflexivity|]. cbn [files_written]. now rewrite Hfiles.
    + destruct (IH Hrest (S idx)
                   (tr ++ [Print ("Warning: Row " ++ Str.of_nat idx
                                  ++ " has empty filename, skipping...")])%list)
        as (ext & -> & Hfiles).
      eexists (_ :: ext). rewrite <- app_assoc. cbn [app].
      split; [reflexivity|]. cbn [files_written]. exact Hfiles.
Qed.

(** X7.  When every write succeeds and no row makes the loop body raise,
    the run returns normally with exit status 0 and has written, in row
    order, exactly one file for each row whose file name is not empty:
    the files [planned_files] lists. *)
Theorem X7_one_file_per_named_row
        (w : world) (prog template_path csv_path template : string)
        (lines : list (list string)) (filename_column : string)
        (variable_columns : list string) :
  template_file w template_path = ReadOk template ->
  csv_file w csv_path = ReadOk lines ->
  DictReader_fieldnames lines = Some (filename_column :: variable_columns) ->
  DictReader_rows lines <> [] ->
  rows_computable template filename_column variable_columns
                  (DictReader_rows lines) = true ->
  (forall tr path content, write_file w tr path content = None) ->
  snd (run (main w [prog; template_path; csv_path])) = Returned
  /\ exit_status (snd (run (main w [prog; template_path; csv_path]))) = 0
  /\ files_written (fst (run (main w [prog; template_path; csv_path])))
     = planned_files template filename_column variable_columns
                     (DictReader_rows lines).
Proof.
  intros Ht Hc Hf Hne Hok Hw.
  rewrite (main_with_rows w prog template_path csv_path template lines
             filename_column variable_columns Ht Hc Hf Hne).
  match goal with
  | |- context [process_rows ?a ?b ?c ?d ?e ?f ?g] =>
      destruct (process_rows_all_written a b c d f Hw Hok e g)
        as (ext & -> & Hfiles)
  end.
  cbn [fst snd exit_status]. split; [reflexivity|]. split; [reflexivity|].
  rewrite !files_written_app. cbn [files_written app].
  rewrite app_nil_r. exact Hfiles.
Qed.

Lemma X7_one_file_per_named_row_witness :
  let lines := [["filename"; "A"]; ["one"; "x"]; ["   "; "y"]; ["three"; "z"]] in
  template_file world_blank_name "t" = ReadOk "v=${A}"
  /\ csv_file world_blank_name "d" = ReadOk lines
  /\ DictReader_fieldnames lines = Some ["filename"; "A"]
  /\ DictReader_rows lines <> []
  /\ rows_computable "v=${A}" "filename" ["A"] (DictReader_rows lines) = true
  /\ (forall tr path content, write_file world_blank_name tr path content = None)
  /\ snd (run (main world_blank_name ["prog"; "t"; "d"])) = Returned
  /\ files_written (fst (run (main world_blank_name ["prog"; "t"; "d"])))
     = [("one.txt", "v=x"); ("three.txt", "v=z")].
Proof.
  intros lines.
  assert (Hne : DictReader_rows lines <> []) by discriminate.
  assert (Hw : forall tr path content,
             write_file world_blank_name tr path content = None)
    by reflexivity.
  split; [reflexivity|]. split; [reflexivity|]. split; [reflexivity|].
  split; [exact Hne|]. split; [reflexivity|]. split; [exact Hw|].
  destruct (X7_one_file_per_named_row world_blank_name "prog" "t" "d" "v=${A}"
              lines "filename" ["A"] eq_refl eq_refl eq_refl Hne eq_refl Hw)
    as (Hret & _ & Hfiles).
  split; [exact Hret | exact Hfiles].
Defined.

(* ----------------------------------------------------------------- *)
(** ** X8, X9: exceptions nothing catches *)

(** X8.  A value that is no well-formed replacement for [re.sub] ends the
    whole run: for a row with a file name, the exception of the first such
    value, in mapping order, leaves [main] uncaught, whatever the template;
    the row writes nothing and the rows behind it are not worked on. *)
Theorem X8_bad_value_aborts_the_run
        (w : world) (template filename_column : string)
        (variable_columns : list string) (idx : nat)
        (row : dict pyval) (rest : list (dict pyval))
        (value : string) (variables : dict pyval) (e : exn)
        (tr : list event) :
  dict_get filename_column row = Some (PStr value) ->
  Str.strip value <> "" ->
  build_variables row variable_columns [] = Ok variables ->
  first_error variables = Some e ->
  process_rows w template filename_column variable_columns idx (row :: rest) tr
  = (tr, Stop (Uncaught e)).
Proof.
  intros Hget Hne Hb He.
  rewrite process_rows_cons, process_row_eq.
  unfold row_output, filename_of_row. rewrite Hget. cbn [bind].
  apply String.eqb_neq in Hne. rewrite Hne, Hb. cbn [bind].
  pose proof (replace_variables_first_error template variables) as Hr.
  rewrite He in Hr. rewrite Hr. reflexivity.
Qed.

Lemma X8_bad_value_aborts_the_run_witness :
  let row := [("filename", PStr "two"); ("D", PStr "C:\dir")] in
  dict_get "filename" row = Some (PStr "two")
  /\ Str.strip "two" <> ""
  /\ build_variables row ["D"] [] = Ok [("D", PStr "C:\dir")]
  /\ first_error [("D", PStr "C:\dir")] = Some (ReError "bad escape")
  /\ process_rows world_bad_escape "no placeholder here" "filename" ["D"] 2
       [row; [("filename", PStr "three"); ("D", PStr "usr")]]
       [Write "one.txt" "dir=tmp"; Print "Created: one.txt"]
     = ([Write "one.txt" "dir=tmp"; Print "Created: one.txt"],
        Stop (Uncaught (ReError "bad escape"))).
Proof.
  intros row.
  assert (Hne : Str.strip "two" <> "") by discriminate.
  split; [reflexivity|]. split; [exact Hne|].
  split; [reflexivity|]. split; [reflexivity|].
  exact (X8_bad_value_aborts_the_run world_bad_escape "no placeholder here"
           "filename" ["D"] 2 row
           [[("filename", PStr "three"); ("D", PStr "usr")]]
           "two" [("D", PStr "C:\dir")] (ReError "bad escape")
           [Write "one.txt" "dir=tmp"; Print "Created: one.txt"]
           eq_refl Hne eq_refl eq_refl).
Defined.

(** X9.  A header that names its first column once more, at a place for
    which a line has no field, makes the row bind that name to [None];
    [row[filename_column].strip()] then raises [AttributeError], which
    nothing catches: the run ends at that row. *)
Theorem X9_repeated_first_name_crashes
        (w : world) (template : string) (fieldnames line : list string)
        (idx : nat) (rest : list (dict pyval)) (tr : list event) :
  In (hd "" fieldnames) (skipn (List.length line) fieldnames) ->
  dict_get (hd "" fieldnames) (DictReader_row fieldnames line) = Some PNone
  /\ process_rows w template (hd "" fieldnames) (tl fieldnames) idx
       (DictReader_row fieldnames line :: rest) tr
     = (tr, Stop (Uncaught
                    (AttributeError
                       "'NoneType' object has no attribute 'strip'"))).
Proof.
  intros Hin.
  pose proof (DictReader_row_short fieldnames line _ Hin) as Hget.
  split; [exact Hget|].
  rewrite process_rows_cons, process_row_eq.
  unfold row_output, filename_of_row. rewrite Hget. reflexivity.
Qed.

Lemma X9_repeated_first_name_crashes_witness :
  In (hd "" ["a"; "a"]) (skipn (List.length ["x"]) ["a"; "a"])
  /\ DictReader_row ["a"; "a"] ["x"] = [("a", PNone)]
  /\ process_rows world_repeated_name "v=${a}" "a" ["a"] 1
       [[("a", PNone)]; [("a", PStr "z")]] []
     = ([], Stop (Uncaught
                    (AttributeError
                       "'NoneType' object has no attribute 'strip'"))).
Proof.
  assert (Hin : In (hd "" ["a"; "a"]) (skipn (List.length ["x"]) ["a"; "a"]))
    by (left; reflexivity).
  split; [exact Hin|]. split; [reflexivity|].
  exact (proj2 (X9_repeated_first_name_crashes world_repeated_name
                  "v=${a}" ["a"; "a"] ["x"] 1 [[("a", PStr "z")]] [] Hin)).
Defined.

(* ----------------------------------------------------------------- *)
(** ** X10, X11: the rows of the reader *)

Lemma In_skipn {A} (x : A) (n : nat) (l : list A) :
  In x (skipn n l) -> In x l.
Proof.
  intros H. rewrite <- (firstn_skipn n l). apply in_or_app. now right.
Qed.

(** X10.  On a row the reader built for a header that is not empty, the
    look-ups of [main] never raise [KeyError]: the first column has a
    value, and the mapping of the other columns is built, with one entry
    for each of their names, bound to what the row binds the name to. *)
Theorem X10_row_lookups_succeed (fieldnames line : list string) :
  fieldnames <> [] ->
  (exists v, dict_get (hd "" fieldnames) (DictReader_row fieldnames line)
             = Some v)
  /\ (forall key, filename_of_row (DictReader_row fieldnames line)
                                  (hd "" fieldnames)
                  <> Raise (KeyError key))
  /\ exists variables,
       build_variables (DictReader_row fieldnames line) (tl fieldnames) []
       = Ok variables
       /\ NoDup (dict_keys variables)
       /\ (forall col, In col (dict_keys variables) <-> In col (tl fieldnames))
       /\ (forall col, In col (tl fieldnames) ->
             dict_get col variables
             = dict_get col (DictReader_row fieldnames line)).
Proof.
  intros Hne. set (row := DictReader_row fieldnames line).
  assert (Hfirst : dict_get (hd "" fieldnames) row <> None).
  { apply DictReader_row_total. destruct fieldnames; [congruence | now left]. }
  split; [|split].
  - destruct (dict_get (hd "" fieldnames) row) as [v|]; [now exists v | congruence].
  - intros key. unfold filename_of_row.
    destruct (dict_get (hd "" fieldnames) row) as [[s|]|]; congruence.
  - destruct (build_variables_total row (tl fieldnames))
      with (acc := @nil (string * pyval)) as [variables Hb].
    { intros c Hin. apply DictReader_row_total. now apply In_tl. }
    exists variables. split; [exact Hb|]. split; [|split].
    + apply (build_variables_NoDup _ _ _ _ Hb). constructor.
    + intros col. rewrite (build_variables_keys _ _ _ _ Hb col).
      cbn [dict_keys map In]. intuition.
    + intros col Hin. rewrite (build_variables_get _ _ _ _ Hb col).
      apply existsb_eqb_In in Hin. now rewrite Hin.
Qed.

Lemma X10_row_lookups_succeed_witness :
  ["filename"; "A"; "B"] <> []
  /\ exists variables,
       build_variables (DictReader_row ["filename"; "A"; "B"] ["out"; "x"])
                       ["A"; "B"] [] = Ok variables
       /\ (forall col, In col (dict_keys variables) <-> In col ["A"; "B"]).
Proof.
  assert (Hne : ["filename"; "A"; "B"] <> []) by discriminate.
  split; [exact Hne|].
  destruct (X10_row_lookups_succeed ["filename"; "A"; "B"] ["out"; "x"] Hne)
    as (_ & _ & variables & Hb & _ & Hkeys & _).
  exists variables. split; [exact Hb | exact Hkeys].
Defined.

Lemma fold_set_get_other {V} (l : list (string * V)) (d : dict V) (k : string) :
  ~ In k (map fst l) ->
  dict_get k (fold_left (fun d kv => dict_set (fst kv) (snd kv) d) l d)
  = dict_get k d.
Proof.
  revert d. induction l as [|[k0 v0] l IH]; intros d Hnin; [reflexivity|].
  cbn [fold_left fst snd]. rewrite IH by (intros H; apply Hnin; now right).
  apply dict_get_set_neq. intros ->. apply Hnin. now left.
Qed.

Lemma dict_of_zip_get (fieldnames line : list string) :
  forall i d,
    NoDup fieldnames -> i < List.length fieldnames -> i < List.length line ->
    dict_get (nth i fieldnames "")
             (fold_left (fun d kv => dict_set (fst kv) (snd kv) d)
                        (combine fieldnames (map PStr line)) d)
    = Some (PStr (nth i line "")).
Proof.
  revert line. induction fieldnames as [|h t IH]; intros line i d Hnd Hi Hl.
  - cbn in Hi. lia.
  - destruct line as [|x xs]; [cbn in Hl; lia|].
    inversion Hnd as [|? ? Hnin Hnd']; subst.
    cbn [map combine fold_left fst snd]. destruct i as [|j]; cbn [nth].
    + rewrite fold_set_get_other; [apply dict_get_set_eq|].
      intros Hin. apply Hnin. apply in_map_iff in Hin as ([k v] & <- & Hin).
      now apply in_combine_l in Hin.
    + apply IH; [exact Hnd' | cbn in Hi; lia | cbn in Hl; lia].
Qed.

Lemma nth_not_in_skipn (l : list string) :
  forall i n, NoDup l -> i < n -> i < List.length l ->
              ~ In (nth i l "") (skipn n l).
Proof.
  induction l as [|h t IH]; intros i n Hnd Hin Hil; [cbn in Hil; lia|].
  inversion Hnd as [|? ? Hnin Hnd']; subst.
  destruct n as [|n]; [lia|]. cbn [skipn]. destruct i as [|j]; cbn [nth].
  - intros H. apply Hnin. now apply In_skipn in H.
  - apply IH; [exact Hnd' | lia | cbn in Hil; lia].
Qed.

Lemma nth_in_skipn (l : list string) :
  forall i n, n <= i -> i < List.length l -> In (nth i l "") (skipn n l).
Proof.
  induction l as [|h t IH]; intros i n Hni Hil; [cbn in Hil; lia|].
  destruct n as [|n]; [cbn [skipn]; now apply nth_In|].
  destruct i as [|j]; [lia|]. cbn [skipn nth].
  apply IH; [lia | cbn in Hil; lia].
Qed.

(** X11.  For a header without repeated names, a row binds the name of the
    i-th column to the i-th field of the line, and to [None] when the line
    has no i-th field. *)
Theorem X11_row_binds_columns_to_fields
        (fieldnames line : list string) (i : nat) :
  NoDup fieldnames ->
  i < List.length fieldnames ->
  dict_get (nth i fieldnames "") (DictReader_row fieldnames line)
  = match nth_error line i with
    | Some field => Some (PStr field)
    | None => Some PNone
    end.
Proof.
  intros Hnd Hi. unfold DictReader_row, dict_of_pairs. rewrite fold_restval_get.
  destruct (Nat.lt_ge_cases i (List.length line)) as [Hlt|Hge].
  - rewrite (nth_error_nth' line "" Hlt).
    destruct (existsb (String.eqb (nth i fieldnames ""))
                      (skipn (List.length line) fieldnames)) eqn:E.
    + apply existsb_eqb_In in E.
      now apply nth_not_in_skipn in E.
    + now apply dict_of_zip_get.
  - assert (Hnone : nth_error line i = None) by now apply nth_error_None.
    rewrite Hnone.
    assert (E : existsb (String.eqb (nth i fieldnames ""))
                        (skipn (List.length line) fieldnames) = true)
      by (apply existsb_eqb_In; now apply nth_in_skipn).
    now rewrite E.
Qed.

Lemma X11_row_binds_columns_to_fields_witness :
  NoDup ["filename"; "A"; "B"]
  /\ 1 < List.length ["filename"; "A"; "B"]
  /\ dict_get "A" (DictReader_row ["filename"; "A"; "B"] ["out"; "x"])
     = Some (PStr "x").
Proof.
  assert (Hnd : NoDup ["filename"; "A"; "B"]).
  { repeat constructor; cbn; intuition discriminate. }
  assert (Hlt : 1 < List.length ["filename"; "A"; "B"]) by (cbn; lia).
  split; [exact Hnd|]. split; [exact Hlt|].
  exact (X11_row_binds_columns_to_fields ["filename"; "A"; "B"] ["out"; "x"] 1
           Hnd Hlt).
Defined.

(* ----------------------------------------------------------------- *)
(** ** X12 - X16: more on [replace_variables] *)

(** X12.  Whether [replace_variables] raises is decided by the values of
    the mapping alone: when one of them is no well-formed replacement, the
    exception of the first such value in mapping order is raised for every
    template, also one without any placeholder; otherwise a text is
    returned for every template. *)
Theorem X12_errors_depend_on_values_only
        (template : string) (variables : dict pyval) :
  match first_error variables with
  | Some e => forall other, replace_variables other variables = Raise e
  | None =>
      exists out, replace_variables template variables = Ok out
  end.
Proof.
  destruct (first_error variables) as [e|] eqn:E.
  - intros other.
    pose proof (replace_variables_first_error other variables) as H.
    now rewrite E in H.
  - pose proof (replace_variables_first_error template variables) as H.
    now rewrite E in H.
Qed.

Lemma no_backslash_first_error (variables : dict pyval) :
  no_backslash variables = true -> first_error variables = None.
Proof.
  induction variables as [|[k v] rest IH]; intros H; [reflexivity|].
  cbn [no_backslash forallb snd] in H. apply andb_true_iff in H as [Hv Hrest].
  apply negb_true_iff in Hv. cbn [first_error].
  destruct (parse_template_plain _ Hv) as (ps & -> & _). now apply IH.
Qed.

Lemma spec_resolve_idem (variables : dict pyval) (seg : segment) :
  spec_resolve variables (spec_resolve variables seg)
  = spec_resolve variables seg.
Proof.
  destruct seg as [text | n | n]; cbn [spec_resolve]; try reflexivity;
    destruct (dict_get n variables) eqn:E; cbn [spec_resolve];
    try reflexivity; now rewrite E.
Qed.

Lemma template_ok_resolved (variables : dict pyval) (segs : list segment) :
  values_ok variables = true -> template_ok segs = true ->
  template_ok (map (spec_resolve variables) segs) = true.
Proof.
  intros Hv. induction segs as [|seg segs IH]; intros Hok; [reflexivity|].
  apply template_ok_cons in Hok as [Hseg Hsegs].
  cbn [map template_ok forallb]. apply andb_true_iff. split; [|now apply IH].
  destruct seg as [text | n | n]; cbn [spec_resolve]; try exact Hseg;
    destruct (dict_get n variables) as [v|] eqn:E; try exact Hseg;
    cbn [segment_ok];
    apply value_ok_inv,
      (dict_get_forallb (fun _ v => value_ok v) n v variables Hv E).
Qed.

(** X13.  On a template of plain text and clean placeholders, with a clean
    mapping (the conditions of C1), substitution is idempotent: what
    [replace_variables] returns is left as it is by a second run with the
    same mapping. *)
Theorem X13_substitution_idempotent
        (segs : list segment) (variables : dict pyval) :
  template_ok segs = true ->
  names_ok variables = true ->
  values_ok variables = true ->
  exists out,
    replace_variables (render segs) variables = Ok out
    /\ replace_variables out variables = Ok out.
Proof.
  intros Hok Hn Hv. exists (spec_substitute segs variables).
  split; [now apply replace_variables_spec|].
  unfold spec_substitute at 1.
  rewrite replace_variables_spec;
    [|now apply template_ok_resolved | exact Hn | exact Hv].
  unfold spec_substitute. rewrite map_map.
  now rewrite (map_ext _ _ (spec_resolve_idem variables)).
Qed.

Lemma X13_substitution_idempotent_witness :
  let segs := [Plain "a="; Dollar "A"; Plain " u="; Brace "U"] in
  let variables := [("A", PStr "{1}")] in
  template_ok segs = true /\ names_ok variables = true
  /\ values_ok variables = true
  /\ exists out,
       replace_variables "a=${A} u={{U}}" variables = Ok out
       /\ replace_variables out variables = Ok out.
Proof.
  intros segs variables.
  split; [reflexivity|]. split; [reflexivity|]. split; [reflexivity|].
  exact (X13_substitution_idempotent segs variables eq_refl eq_refl eq_refl).
Defined.

Lemma template_ok_flip (segs : list segment) :
  template_ok segs = true -> template_ok (map flip_syntax segs) = true.
Proof.
  induction segs as [|seg segs IH]; intros Hok; [reflexivity|].
  apply template_ok_cons in Hok as [Hseg Hsegs].
  cbn [map template_ok forallb]. apply andb_true_iff. split; [|now apply IH].
  now destruct seg.
Qed.

(** X14.  The two syntaxes stand for the same thing: on a template of
    plain text and clean placeholders that all name variables of a clean
    mapping, writing every [${NAME}] as [{{NAME}}] and every [{{NAME}}] as
    [${NAME}] does not change the output. *)
Theorem X14_both_syntaxes_give_the_same
        (segs : list segment) (variables : dict pyval) :
  template_ok segs = true ->
  names_ok variables = true ->
  values_ok variables = true ->
  all_known variables segs = true ->
  replace_variables (render (map flip_syntax segs)) variables
  = replace_variables (render segs) variables.
Proof.
  intros Hok Hn Hv Hknown.
  rewrite !replace_variables_spec;
    [|assumption..|now apply template_ok_flip|assumption|assumption].
  unfold spec_substitute. rewrite map_map. f_equal. f_equal.
  apply map_ext_in. intros seg Hin.
  unfold all_known in Hknown. rewrite forallb_forall in Hknown.
  specialize (Hknown seg Hin).
  destruct seg as [text | n | n]; cbn [flip_syntax spec_resolve];
    try reflexivity; now destruct (dict_get n variables).
Qed.

Lemma X14_both_syntaxes_give_the_same_witness :
  let segs := [Plain "Host: "; Dollar "HOST"; Plain ", Port: "; Brace "PORT"] in
  let variables := [("HOST", PStr "h1"); ("PORT", PStr "80")] in
  template_ok segs = true /\ names_ok variables = true
  /\ values_ok variables = true /\ all_known variables segs = true
  /\ replace_variables "Host: {{HOST}}, Port: ${PORT}" variables
     = replace_variables "Host: ${HOST}, Port: {{PORT}}" variables.
Proof.
  intros segs variables.
  split; [reflexivity|]. split; [reflexivity|]. split; [reflexivity|].
  split; [reflexivity|].
  exact (X14_both_syntaxes_give_the_same segs variables
           eq_refl eq_refl eq_refl eq_refl).
Defined.

(** X15.  One call of [re.sub] for the placeholder of a clean name replaces
    every occurrence, not the first one only, and does not read what it
    puts in: around an occurrence, the text before it and the text behind
    it are rewritten each by itself and the replacement stands between
    them as it is, also when it holds the placeholder again. *)
Theorem X15_scan_replaces_every_occurrence
        (var_name repl before behind : string) :
  name_ok var_name = true ->
  Str.mem Re.backslash repl = false ->
  Re.re_sub (dollar_placeholder var_name) repl
            (before ++ dollar_placeholder var_name ++ behind)
  = Ok (Re.replace_all (dollar_placeholder var_name) repl before
        ++ repl
        ++ Re.replace_all (dollar_placeholder var_name) repl behind)
  /\ Re.re_sub (brace_placeholder var_name) repl
               (before ++ brace_placeholder var_name ++ behind)
     = Ok (Re.replace_all (brace_placeholder var_name) repl before
           ++ repl
           ++ Re.replace_all (brace_placeholder var_name) repl behind).
Proof.
  intros Hk Hbs. rewrite !re_sub_plain by exact Hbs. split; f_equal.
  - apply replace_all_around; auto with placeholders.
    apply replace_all_match. discriminate.
  - apply replace_all_around; auto with placeholders.
    apply replace_all_match. discriminate.
Qed.

Lemma X15_scan_replaces_every_occurrence_witness :
  name_ok "A" = true
  /\ Str.mem Re.backslash "<${A}>" = false
  /\ Re.re_sub "${A}" "<${A}>" "x${A}y${A}z" = Ok "x<${A}>y<${A}>z".
Proof.
  split; [reflexivity|]. split; [reflexivity|].
  exact (proj1 (X15_scan_replaces_every_occurrence "A" "<${A}>" "x" "y${A}z"
                  eq_refl eq_refl)).
Defined.

Lemma append_nil_r (s : string) : s ++ "" = s.
Proof. induction s as [|c s IH]; cbn [append]; [reflexivity | now rewrite IH]. Qed.

Lemma replace_pass_no_start (ph : string -> string) (variables : dict pyval)
      (text : string) :
  (forall k, exists h l, ph k = String h l /\ Str.mem h text = false) ->
  no_backslash variables = true ->
  replace_pass ph variables text = Ok text.
Proof.
  intros Hph. induction variables as [|[k v] rest IH]; intros Hbs; [reflexivity|].
  cbn [no_backslash forallb snd] in Hbs. apply andb_true_iff in Hbs as [Hv Hrest].
  apply negb_true_iff in Hv.
  cbn [replace_pass]. rewrite re_sub_plain by exact Hv. cbn [bind].
  destruct (Hph k) as (h & l & -> & Hmem).
  rewrite <- (append_nil_r text) at 1.
  rewrite replace_all_block by now apply no_match_free.
  cbn. rewrite append_nil_r. now apply IH.
Qed.

(** X16.  A template without the characters [$] and [{] is returned as it
    is, whatever the names of the variables, when no value holds a
    backslash. *)
Theorem X16_text_without_placeholder_characters
        (template : string) (variables : dict pyval) :
  Str.mem "$" template = false ->
  Str.mem "{" template = false ->
  no_backslash variables = true ->
  replace_variables template variables = Ok template.
Proof.
  intros Hd Hb Hbs. unfold replace_variables.
  rewrite replace_pass_no_start; [cbn [bind]| |exact Hbs].
  - rewrite replace_pass_no_start; [reflexivity| |exact Hbs].
    intros k. eexists _, _. split; [apply brace_placeholder_eq | exact Hb].
  - intros k. eexists _, _. split; [apply dollar_placeholder_eq | exact Hd].
Qed.

Lemma X16_text_without_placeholder_characters_witness :
  Str.mem "$" "plain text }" = false
  /\ Str.mem "{" "plain text }" = false
  /\ no_backslash [("a}${U", PStr "${x}"); ("", PNone)] = true
  /\ replace_variables "plain text }" [("a}${U", PStr "${x}"); ("", PNone)]
     = Ok "plain text }".
Proof.
  split; [reflexivity|]. split; [reflexivity|]. split; [reflexivity|].
  exact (X16_text_without_placeholder_characters "plain text }"
           [("a}${U", PStr "${x}"); ("", PNone)] eq_refl eq_refl eq_refl).
Defined.

(* ----------------------------------------------------------------- *)
(** ** X17: file names that meet *)

(** X17.  A file name without the extension and the same name with [.txt]
    behind it give one and the same path, so two such rows write the same
    file, the later over the earlier. *)
Theorem X17_names_with_and_without_extension_meet (output_filename : string) :
  Str.endswith output_filename ".txt" = false ->
  add_txt_extension output_filename = output_filename ++ ".txt"
  /\ add_txt_extension (output_filename ++ ".txt")
     = add_txt_extension output_filename.
Proof.
  intros H. unfold add_txt_extension.
  rewrite H, endswith_append. cbn [negb]. now split.
Qed.

Lemma X17_names_with_and_without_extension_meet_witness :
  Str.endswith "report" ".txt" = false
  /\ add_txt_extension "report.txt" = add_txt_extension "report".
Proof.
  split; [reflexivity|].
  exact (proj2 (X17_names_with_and_without_extension_meet "report" eq_refl)).
Defined.
